(** * Antecedentes de sucesos — Tec Laguna / Torreón

    A shallow embedding of [sucesos_app.py] (src/main.py): the SQLite table
    [sucesos] with its two operations, the Poisson summary and the code of
    the three Streamlit tabs, followed by the properties of the
    specification.

    Conventions of the embedding.
    - The table is a list of rows in insertion order together with the
      counter SQLite keeps for an [AUTOINCREMENT] key.
    - A [DataFrame] is the list of its rows.  A Python [None] / SQL [NULL] /
      pandas [NaT] or [NaN] is [None].
    - Python floats are exact numbers here: coordinates are rationals ([Q]),
      rates and probabilities are reals ([R]), because of [exp].
    - A Python exception is the left injection of a sum. *)

From Stdlib Require Import ZArith QArith Reals List String Ascii Bool.
From Stdlib Require Import Lia Lra Permutation Sorted Zfloor DecimalString.
Import ListNotations.

Local Open Scope string_scope.
Local Open Scope Z_scope.

(* ------------------------------------------------------------------ *)
(** * Calendar dates: [datetime.date], [str(date)] and [pd.to_datetime] *)
(* ------------------------------------------------------------------ *)

Module Fecha.

(** A [datetime.date] (and, at midnight, a pandas [Timestamp]). *)
Record date : Type := mkdate { year : Z; month : Z; day : Z }.

Definition is_leap (y : Z) : bool :=
  (y mod 4 =? 0) && (negb (y mod 100 =? 0) || (y mod 400 =? 0)).

Definition days_in_month (y m : Z) : Z :=
  match m with
  | 1 | 3 | 5 | 7 | 8 | 10 | 12 => 31
  | 4 | 6 | 9 | 11 => 30
  | 2 => if is_leap y then 29 else 28
  | _ => 0
  end.

(** The values [datetime.date] can hold: years 1 to 9999. *)
Definition valid_date (d : date) : bool :=
  (1 <=? year d) && (year d <=? 9999) &&
  (1 <=? month d) && (month d <=? 12) &&
  (1 <=? day d) && (day d <=? days_in_month (year d) (month d)).

Definition digit_char (k : Z) : ascii := ascii_of_nat (48 + Z.to_nat k).

Definition digit_val (c : ascii) : option Z :=
  let n := Z.of_nat (nat_of_ascii c) in
  if (48 <=? n) && (n <=? 57) then Some (n - 48) else None.

Definition pad2 (n : Z) : string :=
  String (digit_char (n / 10)) (String (digit_char (n mod 10)) "").

Definition pad4 (n : Z) : string :=
  String (digit_char (n / 1000))
    (String (digit_char (n / 100 mod 10)) (pad2 (n mod 100))).

(** [str(fecha)] for a [datetime.date]: the ISO layout [YYYY-MM-DD]. *)
Definition isoformat (d : date) : string :=
  pad4 (year d) ++ "-" ++ pad2 (month d) ++ "-" ++ pad2 (day d).

Definition num2 (a b : ascii) : option Z :=
  match digit_val a, digit_val b with
  | Some x, Some y => Some (10 * x + y)
  | _, _ => None
  end.

Definition num4 (a b c d : ascii) : option Z :=
  match num2 a b, num2 c d with
  | Some x, Some y => Some (100 * x + y)
  | _, _ => None
  end.

(** Reading back the layout [YYYY-MM-DD]; anything else is not a date. *)
Definition parse_iso (s : string) : option date :=
  match s with
  | String y1 (String y2 (String y3 (String y4 (String s1
      (String m1 (String m2 (String s2 (String d1 (String d2 EmptyString)))))))))
    =>
      if Ascii.eqb s1 "-" && Ascii.eqb s2 "-" then
        match num4 y1 y2 y3 y4, num2 m1 m2, num2 d1 d2 with
        | Some y, Some m, Some d =>
            let r := mkdate y m d in
            if valid_date r then Some r else None
        | _, _, _ => None
        end
      else None
  | _ => None
  end.

(** Lexicographic order on dates. *)
Definition date_leb (a b : date) : bool :=
  (year a <? year b) ||
  ((year a =? year b) &&
   ((month a <? month b) || ((month a =? month b) && (day a <=? day b)))).

(** The midnights a [Timestamp] of nanosecond resolution can hold:
    from 1677-09-21 00:12:43 to 2262-04-11 23:47:16. *)
Definition in_timestamp_range (d : date) : bool :=
  date_leb (mkdate 1677 9 22) d && date_leb d (mkdate 2262 4 11).

(** [pd.to_datetime(x, errors='coerce')] on one cell of a column of
    [str(date)] texts, the texts the recorder writes: the date, at any year
    of [datetime.date] (the resolution follows the data), and [NaT] for a
    text that is not in that layout. *)
Definition to_datetime (s : string) : option date := parse_iso s.

(** [Series.dt.year]: the year, [NaN] for [NaT]. *)
Definition dt_year (t : option date) : option Z := option_map year t.

(** [str(x.date())] of a loaded cell; [NaT.date()] is [NaT]. *)
Definition date_str (t : option date) : string :=
  match t with
  | Some d => isoformat d
  | None => "NaT"
  end.

End Fecha.

(* ------------------------------------------------------------------ *)
(** * The table [sucesos] *)
(* ------------------------------------------------------------------ *)

Module BaseDatos.

(** One row.  [F] is the type of the [fecha] cell: the text of the table,
    or the parsed value of the loaded frame.  The cells the data model
    calls optional may be [NULL]. *)
Record Suceso (F : Type) : Type := mkSuceso {
  id : Z;
  fecha : F;
  tipo : string;
  subtipo : option string;
  lugar : option string;
  lat : option Q;
  lon : option Q;
  gravedad : Z;
  impacto : option string;
  fuente : option string;
  notas : option string
}.

Arguments mkSuceso {F}.
Arguments id {F}.
Arguments fecha {F}.
Arguments tipo {F}.
Arguments subtipo {F}.
Arguments lugar {F}.
Arguments lat {F}.
Arguments lon {F}.
Arguments gravedad {F}.
Arguments impacto {F}.
Arguments fuente {F}.
Arguments notas {F}.

(** The database file: the rows of [sucesos] in insertion order and the
    entry of [sqlite_sequence] for the table (the largest key ever used). *)
Record DB : Type := mkDB {
  sucesos : list (Suceso string);
  sqlite_sequence : Z
}.

(** [crear_db]: [CREATE TABLE IF NOT EXISTS] on the file, which may or
    may not hold the table yet. *)
Definition crear_db (file : option DB) : DB :=
  match file with
  | Some db => db
  | None => mkDB [] 0
  end.

Definition max_rowid (l : list (Suceso string)) : Z :=
  fold_right (fun s m => Z.max (id s) m) 0 l.

(** The key an [INTEGER PRIMARY KEY AUTOINCREMENT] column receives:
    one more than the largest key the table has or ever had. *)
Definition next_rowid (db : DB) : Z :=
  Z.max (sqlite_sequence db) (max_rowid (sucesos db)) + 1.

(** [agregar_suceso]: one [INSERT] of the ten values, then [commit]; the
    table after an insert that sqlite3 carries out (its limits are in
    [Sqlite3.agregar_suceso]). *)
Definition agregar_suceso
    (fecha tipo : string) (subtipo lugar : option string)
    (lat lon : option Q) (gravedad : Z)
    (impacto fuente notas : option string) (db : DB) : DB :=
  let rowid := next_rowid db in
  mkDB (sucesos db ++
          [mkSuceso rowid fecha tipo subtipo lugar lat lon gravedad
                    impacto fuente notas])
       rowid.

Definition DataFrame : Type := list (Suceso (option Fecha.date)).

(** [df.empty] *)
Definition empty {A} (df : list A) : bool :=
  match df with [] => true | _ => false end.

Definition con_fecha {F G} (f : F -> G) (s : Suceso F) : Suceso G :=
  mkSuceso (id s) (f (fecha s)) (tipo s) (subtipo s) (lugar s) (lat s)
           (lon s) (gravedad s) (impacto s) (fuente s) (notas s).

(** [cargar_datos]: [SELECT * FROM sucesos], then the [fecha] column
    through [pd.to_datetime] when the frame has rows. *)
Definition cargar_datos (db : DB) : DataFrame :=
  let df := sucesos db in
  if negb (empty df) then map (con_fecha Fecha.to_datetime) df
  else [].

End BaseDatos.

(* ------------------------------------------------------------------ *)
(** * Analytic functions *)
(* ------------------------------------------------------------------ *)

Module Analitica.
Import Fecha BaseDatos.

(** [probabilidad_poisson] *)
Definition probabilidad_poisson (lmbda : R) : R := (1 - exp (- lmbda))%R.

(** Nearest integer, ties to the even one: the rounding of [round] and of
    the [.1f] format. *)
Definition round_half_even (x : R) : Z :=
  let k := Zfloor x in
  let f := (x - IZR k)%R in
  if Rlt_dec f (1 / 2) then k
  else if Rlt_dec (1 / 2) f then k + 1
  else if Z.even k then k else k + 1.

(** [round(x, ndigits)] *)
Definition py_round (x : R) (ndigits : nat) : R :=
  (IZR (round_half_even (x * 10 ^ ndigits)) / 10 ^ ndigits)%R.

(** [str(n)] for an integer. *)
Definition str_int (n : Z) : string := NilZero.string_of_int (Z.to_int n).

(** [f"{x:.1f}"] *)
Definition format_1f (x : R) : string :=
  let t := round_half_even (Rabs x * 10) in
  (if Rlt_dec x 0 then "-" else "") ++
  str_int (t / 10) ++ "." ++ str_int (t mod 10).

(** Counting one more occurrence of [t], keeping first-seen order. *)
Fixpoint contar (t : string) (acc : list (string * Z)) : list (string * Z) :=
  match acc with
  | [] => [(t, 1)]
  | (k, n) :: rest =>
      if String.eqb k t then (k, n + 1) :: rest else (k, n) :: contar t rest
  end.

Definition conteo_en_orden (l : list string) : list (string * Z) :=
  fold_left (fun acc t => contar t acc) l [].

(** Stable insertion by decreasing count. *)
Fixpoint insertar (x : string * Z) (l : list (string * Z)) : list (string * Z) :=
  match l with
  | [] => [x]
  | y :: rest => if snd y <=? snd x then x :: y :: rest else y :: insertar x rest
  end.

Definition ordenar (l : list (string * Z)) : list (string * Z) :=
  fold_right insertar [] l.

(** [Series.value_counts()]: each distinct value with its number of
    occurrences, most frequent first. *)
Definition value_counts (l : list string) : list (string * Z) :=
  ordenar (conteo_en_orden l).

(** One row of the summary: the dictionary appended to [data]. *)
Record FilaProb : Type := mkFilaProb {
  Tipo : string;
  Eventos_5_anios : Z;
  Promedio_anual : R;
  Probabilidad : string
}.

(** The resulting frame: its column labels and its rows. *)
Record Tabla : Type := mkTabla {
  columns : list string;
  filas : list FilaProb
}.

Definition columnas : list string :=
  ["Tipo"; "Eventos últimos 5 años"; "Promedio anual";
   "Probabilidad (al menos 1/año)"].

(** The body of the loop over [conteo.items()]. *)
Definition fila_prob (tipo : string) (n : Z) : FilaProb :=
  let avg := (IZR n / 5)%R in
  let p := probabilidad_poisson avg in
  mkFilaProb tipo n (py_round avg 2) (format_1f (p * 100) ++ "%").

(** [pd.DataFrame(data)] for a list of dictionaries: the labels are the
    keys of the dictionaries, so an empty list gives no column. *)
Definition DataFrame_de (data : list FilaProb) : Tabla :=
  match data with
  | [] => mkTabla [] []
  | _ => mkTabla columnas data
  end.

(** [df["year"] >= y]; a comparison with [NaN] is false. *)
Definition year_ge (yr : option Z) (y : Z) : bool :=
  match yr with
  | Some v => y <=? v
  | None => false
  end.

(** [recent = df[df["year"] >= current_year - 4]], where the new column
    [year] is [df["fecha"].dt.year]. *)
Definition recientes (current_year : Z) (df : DataFrame) : DataFrame :=
  filter (fun r => year_ge (dt_year (fecha r)) (current_year - 4)) df.

(** [resumen_probabilidades]; [current_year] is
    [datetime.date.today().year]. *)
Definition resumen_probabilidades (current_year : Z) (df : DataFrame) : Tabla :=
  if empty df then mkTabla columnas []
  else
    let recent := recientes current_year df in
    let conteo := value_counts (map tipo recent) in
    let data := map (fun tn => fila_prob (fst tn) (snd tn)) conteo in
    DataFrame_de data.

End Analitica.
(* ------------------------------------------------------------------ *)
(** * The Streamlit page *)
(* ------------------------------------------------------------------ *)

Module Interfaz.
Import Fecha BaseDatos Analitica.

(** ** Tab 1: recording *)

Definition lower_char (c : ascii) : ascii :=
  let n := nat_of_ascii c in
  if (65 <=? n)%nat && (n <=? 90)%nat then ascii_of_nat (n + 32) else c.

(** [str.lower()] on the ASCII letters; no other letter becomes one of
    them, so the comparison with ["true"] is that of the code. *)
Fixpoint lower (s : string) : string :=
  match s with
  | EmptyString => EmptyString
  | String c rest => String (lower_char c) (lower rest)
  end.

(** A value of the secrets file: a text, or a value of another TOML type
    (a number, a boolean, a date, an array, a table). *)
Inductive TomlValue : Type :=
| toml_str (s : string)
| toml_other.

(** [st.secrets]: the keys of the secrets file with their values, or no
    secrets file at all. *)
Definition Secrets : Type := option (list (string * TomlValue)).

Inductive SecretsError : Type :=
| StreamlitSecretNotFoundError
| AttributeError.

Fixpoint lookup (file : list (string * TomlValue)) (key : string)
    : option TomlValue :=
  match file with
  | [] => None
  | (k, v) :: rest => if String.eqb k key then Some v else lookup rest key
  end.

(** [st.secrets.get(key, default)]: without a secrets file the lookup
    raises; a key the file does not have gives the default. *)
Definition get (secrets : Secrets) (key : string) (default : TomlValue)
    : SecretsError + TomlValue :=
  match secrets with
  | None => inl StreamlitSecretNotFoundError
  | Some file =>
      inr (match lookup file key with Some v => v | None => default end)
  end.

(** [allow_write = st.secrets.get("ALLOW_WRITE", "true").lower() == "true"];
    only a text has [lower]. *)
Definition allow_write (secrets : Secrets) : SecretsError + bool :=
  match get secrets "ALLOW_WRITE" (toml_str "true") with
  | inl e => inl e
  | inr (toml_str v) => inr (String.eqb (lower v) "true")
  | inr toml_other => inl AttributeError
  end.

Definition tipos_de_suceso : list string :=
  ["Inundación"; "Apagón"; "Sismo"; "Pandemia"; "Protesta"; "Derrumbe";
   "Otro"].

(** [st.selectbox(label, options)]: the chosen option, the first one when
    nothing else is chosen. *)
Definition selectbox (options : list string) (choice : nat) : string :=
  nth choice options (hd "" options).

(** [st.slider(label, min_value, max_value, value)]: the handle cannot
    leave the track. *)
Definition slider (min_value max_value pos : Z) : Z :=
  Z.max min_value (Z.min max_value pos).

(** What the user has entered in the widgets of [form_suceso].
    [date_input] yields a [datetime.date], the text widgets a [str]
    (empty when left blank), [number_input] a float. *)
Record Formulario : Type := mkFormulario {
  w_fecha : date;
  w_tipo : nat;
  w_subtipo : string;
  w_lugar : string;
  w_lat : Q;
  w_lon : Q;
  w_gravedad : Z;
  w_impacto : string;
  w_fuente : string;
  w_notas : string
}.

(** The call [agregar_suceso(str(fecha), tipo, subtipo, lugar, lat, lon,
    gravedad, impacto, fuente, notas)] of the form. *)
Definition guardar (w : Formulario) (db : DB) : DB :=
  agregar_suceso (isoformat (w_fecha w))
                 (selectbox tipos_de_suceso (w_tipo w))
                 (Some (w_subtipo w)) (Some (w_lugar w))
                 (Some (w_lat w)) (Some (w_lon w))
                 (slider 1 5 (w_gravedad w))
                 (Some (w_impacto w)) (Some (w_fuente w))
                 (Some (w_notas w)) db.

(** ** Tab 2: analysis *)

Definition isin_tipo (t : string) (sel : list string) : bool :=
  existsb (String.eqb t) sel.

Definition eqb_year (a b : option Z) : bool :=
  match a, b with
  | Some x, Some y => x =? y
  | None, None => true
  | _, _ => false
  end.

(** [Series.isin] on the years; a [NaN] year matches a [NaN] among the
    selected values. *)
Definition isin_year (y : option Z) (sel : list (option Z)) : bool :=
  existsb (eqb_year y) sel.

(** [filtrado = df[df["tipo"].isin(tipo_sel) &
                   df["fecha"].dt.year.isin(año_sel)]] *)
Definition filtrado (df : DataFrame) (tipo_sel : list string)
    (anio_sel : list (option Z)) : DataFrame :=
  filter (fun r => isin_tipo (tipo r) tipo_sel &&
                   isin_year (dt_year (fecha r)) anio_sel) df.

(** ** Tab 3: map *)

Inductive PyError : Type :=
| TypeError (msg : string).

(** [pd.notnull] *)
Definition notnull {A} (x : option A) : bool :=
  match x with Some _ => true | None => false end.

(** The keyword arguments of [folium.CircleMarker]. *)
Record CircleMarker : Type := mkCircleMarker {
  location : Q * Q;
  radius : Z;
  color : string;
  fill : bool;
  fill_opacity : Q;
  popup : string
}.

Definition is_continuation (c : ascii) : bool :=
  let n := nat_of_ascii c in (128 <=? n)%nat && (n <? 192)%nat.

(** [s[:n]]: the first [n] characters of a UTF-8 text. *)
Fixpoint slice_to (n : nat) (s : string) : string :=
  match s with
  | EmptyString => EmptyString
  | String c rest =>
      if is_continuation c then String c (slice_to n rest)
      else match n with
           | O => EmptyString
           | S n' => String c (slice_to n' rest)
           end
  end.

(** [str(x)] of a text cell inside an f-string. *)
Definition str_cell (x : option string) : string :=
  match x with Some s => s | None => "None" end.

Definition nl : string := String (ascii_of_nat 10) "".
Definition sangria : string := "                ".

(** The f-string of the popup.  Its last field subscripts
    [row['impacto']], which [None] does not support. *)
Definition popup_html (row : Suceso (option date)) : PyError + string :=
  match impacto row with
  | None => inl (TypeError "'NoneType' object is not subscriptable")
  | Some imp =>
      inr (nl ++ sangria ++ "<b>" ++ tipo row ++ "</b><br>" ++
           nl ++ sangria ++ "Fecha: " ++ date_str (fecha row) ++ "<br>" ++
           nl ++ sangria ++ "Lugar: " ++ str_cell (lugar row) ++ "<br>" ++
           nl ++ sangria ++ "Gravedad: " ++ str_int (gravedad row) ++ "<br>" ++
           nl ++ sangria ++ "Impacto: " ++ slice_to 100 imp ++ "..." ++
           nl ++ sangria)
  end.

(** The body of [for _, row in df.iterrows()]: the marker added to the
    map for this row, if any. *)
Definition marcador (row : Suceso (option date)) : PyError + option CircleMarker :=
  match lat row, lon row with
  | Some la, Some lo =>
      match popup_html row with
      | inl e => inl e
      | inr p =>
          inr (Some (mkCircleMarker (la, lo) (6 + gravedad row)
                       (if 4 <=? gravedad row then "red" else "orange")
                       true (7 # 10) p))
      end
  | _, _ => inr None
  end.

(** The loop; [mapa] holds the markers added so far. *)
Fixpoint marcadores (df : DataFrame) (mapa : list CircleMarker)
    : PyError + list CircleMarker :=
  match df with
  | [] => inr mapa
  | row :: rest =>
      match marcador row with
      | inl e => inl e
      | inr None => marcadores rest mapa
      | inr (Some m) => marcadores rest (mapa ++ [m])%list
      end
  end.

(** What the third tab shows. *)
Inductive Vista : Type :=
| aviso (msg : string)
| st_folium (mapa : list CircleMarker).

Definition tab_mapa (df : DataFrame) : PyError + Vista :=
  if empty df then inr (aviso "Aún no hay sucesos registrados con coordenadas.")
  else
    match marcadores df [] with
    | inl e => inl e
    | inr mapa => inr (st_folium mapa)
    end.

End Interfaz.

(* ------------------------------------------------------------------ *)
(** * The insert with the limits of sqlite3 *)
(* ------------------------------------------------------------------ *)

(** [BaseDatos.agregar_suceso] is the table after an [INSERT] that sqlite3
    carries out.  Here is the call with the two ways in which sqlite3
    refuses it: an integer that does not fit 64 bits cannot be bound, and
    an [AUTOINCREMENT] table that has used the largest key takes no more
    rows.  In both cases [execute] raises, [commit] is not reached and
    the table is as before. *)
Module Sqlite3.
Import Fecha BaseDatos Interfaz.

Definition INT64_MAX : Z := 9223372036854775807.
Definition INT64_MIN : Z := -9223372036854775808.

Inductive Error : Type :=
| OverflowError (msg : string)
| OperationalError (msg : string).

Definition cabe_int64 (n : Z) : bool := (INT64_MIN <=? n) && (n <=? INT64_MAX).

Definition agregar_suceso
    (fecha tipo : string) (subtipo lugar : option string)
    (lat lon : option Q) (gravedad : Z)
    (impacto fuente notas : option string) (db : DB) : Error + DB :=
  if negb (cabe_int64 gravedad) then
    inl (OverflowError "Python int too large to convert to SQLite INTEGER")
  else if INT64_MAX <? next_rowid db then
    inl (OperationalError "database or disk is full")
  else
    inr (BaseDatos.agregar_suceso fecha tipo subtipo lugar lat lon gravedad
           impacto fuente notas db).

(** The call of the form, as in [Interfaz.guardar]. *)
Definition guardar (w : Formulario) (db : DB) : Error + DB :=
  agregar_suceso (isoformat (w_fecha w))
                 (selectbox tipos_de_suceso (w_tipo w))
                 (Some (w_subtipo w)) (Some (w_lugar w))
                 (Some (w_lat w)) (Some (w_lon w))
                 (slider 1 5 (w_gravedad w))
                 (Some (w_impacto w)) (Some (w_fuente w))
                 (Some (w_notas w)) db.

End Sqlite3.

(* ------------------------------------------------------------------ *)
(** * The chart of the analysis tab *)
(* ------------------------------------------------------------------ *)

Module Grafica.
Import Fecha BaseDatos Analitica.

(** One row of [resumen]: the columns [fecha] (a year), [tipo] and
    [conteo]. *)
Record Grupo : Type := mkGrupo {
  g_fecha : Z;
  g_tipo : string;
  conteo : Z
}.

Definition misma_clave (y : Z) (t : string) (g : Grupo) : bool :=
  (g_fecha g =? y) && String.eqb (g_tipo g) t.

(** One more row in the group of the year [y] and the category [t]. *)
Fixpoint contar_grupo (y : Z) (t : string) (acc : list Grupo) : list Grupo :=
  match acc with
  | [] => [mkGrupo y t 1]
  | g :: rest =>
      if misma_clave y t g then mkGrupo y t (conteo g + 1) :: rest
      else g :: contar_grupo y t rest
  end.

(** The sizes of the groups; a row whose year is [NaN] is in no group. *)
Definition agrupar (df : DataFrame) : list Grupo :=
  fold_left (fun acc r =>
               match dt_year (fecha r) with
               | Some y => contar_grupo y (tipo r) acc
               | None => acc
               end) df [].

(** The order of the group keys: by year, then by category. *)
Definition clave_leb (a b : Grupo) : bool :=
  (g_fecha a <? g_fecha b) ||
  ((g_fecha a =? g_fecha b) && String.leb (g_tipo a) (g_tipo b)).

Fixpoint insertar_grupo (x : Grupo) (l : list Grupo) : list Grupo :=
  match l with
  | [] => [x]
  | y :: rest =>
      if clave_leb x y then x :: y :: rest else y :: insertar_grupo x rest
  end.

(** [filtrado.groupby([filtrado["fecha"].dt.year, "tipo"]).size()
             .reset_index(name="conteo")]: one row per group, in the order
    of the keys. *)
Definition groupby_size (df : DataFrame) : list Grupo :=
  fold_right insertar_grupo [] (agrupar df).

(** [Series.unique()]: the values in the order of their first
    occurrence. *)
Fixpoint unique (l : list string) : list string :=
  match l with
  | [] => []
  | x :: rest => x :: filter (fun y => negb (String.eqb x y)) (unique rest)
  end.

(** The arguments of one [ax.plot(x, y, marker="o", label=tipo)]. *)
Record Linea : Type := mkLinea {
  plot_x : list Z;
  plot_y : list Z;
  marker : string;
  label : string
}.

(** The body of [for tipo in resumen["tipo"].unique()]. *)
Definition plot (resumen : list Grupo) (tipo : string) : Linea :=
  let subset := filter (fun g => String.eqb (g_tipo g) tipo) resumen in
  mkLinea (map g_fecha subset) (map conteo subset) "o" tipo.

(** The chart of the filtered frame, if one is drawn. *)
Definition grafica (filtrado : DataFrame) : option (list Linea) :=
  let resumen := groupby_size filtrado in
  if negb (empty resumen) then
    Some (map (plot resumen) (unique (map g_tipo resumen)))
  else None.

End Grafica.

Import Fecha BaseDatos Analitica Interfaz.

(* ------------------------------------------------------------------ *)
(** * Notions used to state the properties *)
(* ------------------------------------------------------------------ *)

Module Propiedades.
Import Grafica.

(** The count a list of pairs holds for the value [t]. *)
Definition buscar (t : string) (acc : list (string * Z)) : Z :=
  fold_right (fun kn m => if String.eqb (fst kn) t then snd kn + m else m)
             0 acc.

(** Every count held is at least one. *)
Definition positivos (acc : list (string * Z)) : Prop :=
  Forall (fun kn => 1 <= snd kn) acc.

(** Number of occurrences of [t] in a column. *)
Definition apariciones (t : string) (l : list string) : Z :=
  Z.of_nat (count_occ string_dec l t).

(** A record is dated within the five calendar years that end with the
    current one when its year is at least [current_year - 4]. *)
Definition en_ventana (current_year : Z) (r : Suceso (option date)) : bool :=
  match fecha r with
  | Some d => current_year - 4 <=? year d
  | None => false
  end.

(** Number of records of category [t] dated within the window. *)
Definition cuenta (current_year : Z) (df : DataFrame) (t : string) : Z :=
  Z.of_nat (List.length
    (filter (fun r => String.eqb (tipo r) t && en_ventana current_year r) df)).

(** A row matches a selection of categories and of years. *)
Definition coincide (tipo_sel : list string) (anio_sel : list (option Z))
    (r : Suceso (option date)) : Prop :=
  In (tipo r) tipo_sel /\ In (dt_year (fecha r)) anio_sel.

(** The tables a fresh file reaches through calls of [agregar_suceso]. *)
Inductive alcanzable : DB -> Prop :=
| alc_nueva : alcanzable (crear_db None)
| alc_agregar (f t : string) (st lu : option string) (la lo : option Q)
    (g : Z) (im fu no : option string) (db : DB) :
    alcanzable db ->
    alcanzable (agregar_suceso f t st lu la lo g im fu no db).

(** The keys 1, 2, ..., n. *)
Definition consecutivas (n : nat) : list Z := map Z.of_nat (seq 1 n).

(** Submitting the forms of [ws] one after the other. *)
Definition registrar (ws : list Formulario) (db : DB) : DB :=
  fold_left (fun d w => guardar w d) ws db.

(** The loaded row expected for the form [w] recorded under the key [k]. *)
Definition fila_de (k : Z) (w : Formulario) : Suceso (option date) :=
  mkSuceso k (Some (w_fecha w)) (selectbox tipos_de_suceso (w_tipo w))
           (Some (w_subtipo w)) (Some (w_lugar w)) (Some (w_lat w))
           (Some (w_lon w)) (slider 1 5 (w_gravedad w)) (Some (w_impacto w))
           (Some (w_fuente w)) (Some (w_notas w)).

(** A date the form can pass on and the loader reads back. *)
Definition fecha_legible (w : Formulario) : bool :=
  valid_date (w_fecha w) && in_timestamp_range (w_fecha w).

(** Sum of the counts a list of pairs holds. *)
Definition suma (acc : list (string * Z)) : Z :=
  fold_right (fun kn a => snd kn + a) 0 acc.

(** Sum of the column of events of a summary. *)
Definition total_eventos (fs : list FilaProb) : Z :=
  fold_right (fun f a => Eventos_5_anios f + a) 0 fs.

(** The row [a] may stand before the row [b]: it counts no fewer events. *)
Definition no_menos_eventos (a b : FilaProb) : Prop :=
  Eventos_5_anios b <= Eventos_5_anios a.

(** The test of the map loop: both coordinates are there. *)
Definition con_coordenadas (r : Suceso (option date)) : bool :=
  notnull (lat r) && notnull (lon r).

(** A row the map loop reaches the popup for, without an impact text. *)
Definition sin_impacto (r : Suceso (option date)) : bool :=
  con_coordenadas r && negb (notnull (impacto r)).

(** The marker [m] is the one of the row [r]. *)
Definition marca_de (r : Suceso (option date)) (m : CircleMarker) : Prop :=
  lat r = Some (fst (location m)) /\ lon r = Some (snd (location m))
  /\ radius m = 6 + gravedad r
  /\ color m = (if 4 <=? gravedad r then "red"%string else "orange"%string)
  /\ popup_html r = inr (popup m).

(** Number of characters of a UTF-8 text: the bytes that start one. *)
Fixpoint caracteres (s : string) : nat :=
  match s with
  | EmptyString => O
  | String c rest =>
      if is_continuation c then caracteres rest else S (caracteres rest)
  end.

(** The text starts at the beginning of a character, or is empty. *)
Definition en_frontera (s : string) : Prop :=
  match s with
  | EmptyString => True
  | String c _ => is_continuation c = false
  end.

(** No cell of the stored row is [NULL]. *)
Definition sin_nulos (s : Suceso string) : Prop :=
  subtipo s <> None /\ lugar s <> None /\ lat s <> None /\ lon s <> None
  /\ impacto s <> None /\ fuente s <> None /\ notas s <> None.

(** The key of a group. *)
Definition clave (g : Grupo) : Z * string := (g_fecha g, g_tipo g).

(** The size a list of groups holds for the year [y] and the category [t]. *)
Definition buscar_grupo (y : Z) (t : string) (acc : list Grupo) : Z :=
  fold_right (fun g m => if misma_clave y t g then conteo g + m else m) 0 acc.

(** The row is of the category [t] and of the year [y]. *)
Definition en_grupo (y : Z) (t : string) (r : Suceso (option date)) : bool :=
  match dt_year (fecha r) with
  | Some y' => (y' =? y) && String.eqb (tipo r) t
  | None => false
  end.

(** Number of rows of the category [t] and of the year [y]. *)
Definition cuenta_grupo (df : DataFrame) (y : Z) (t : string) : Z :=
  Z.of_nat (List.length (filter (en_grupo y t) df)).

(** The points of a line of the chart. *)
Definition puntos (l : Linea) : list (Z * Z) := combine (plot_x l) (plot_y l).


(** The error allowed in a probability computed with floats, 5e-15, and
    the margin the exact values keep, 1e-14. *)
Definition error_flotante : R := (5 / 1000000000000000)%R.
Definition margen : R := (1 / 100000000000000)%R.

(** The probability for [n] events in the window, as a real number. *)
Definition probabilidad_de (n : Z) : R := probabilidad_poisson (IZR n / 5).

End Propiedades.

Import Grafica Propiedades.

Local Open Scope list_scope.

(* ------------------------------------------------------------------ *)
(** * Dates: writing and reading back *)
(* ------------------------------------------------------------------ *)

Section Fechas.

Lemma digit_val_char (k : Z) :
  0 <= k < 10 -> digit_val (digit_char k) = Some k.
Proof.
  intros Hk.
  assert (H : k = 0 \/ k = 1 \/ k = 2 \/ k = 3 \/ k = 4 \/
              k = 5 \/ k = 6 \/ k = 7 \/ k = 8 \/ k = 9) by lia.
  repeat (destruct H as [-> | H]; [reflexivity | ]).
  subst k; reflexivity.
Qed.

Lemma num2_digits (n : Z) :
  0 <= n < 100 ->
  num2 (digit_char (n / 10)) (digit_char (n mod 10)) = Some n.
Proof.
  intros Hn. unfold num2.
  rewrite !digit_val_char.
  - f_equal. symmetry. apply Z.div_mod. lia.
  - apply Z.mod_pos_bound; lia.
  - split; [apply Z.div_pos; lia | apply Z.div_lt_upper_bound; lia].
Qed.

Lemma num4_digits (n : Z) :
  0 <= n < 10000 ->
  num4 (digit_char (n / 1000)) (digit_char (n / 100 mod 10))
       (digit_char (n mod 100 / 10)) (digit_char (n mod 100 mod 10)) = Some n.
Proof.
  intros Hn. unfold num4.
  assert (H100 : 0 <= n / 100 < 100)
    by (split; [apply Z.div_pos; lia | apply Z.div_lt_upper_bound; lia]).
  replace (n / 1000) with (n / 100 / 10)
    by (rewrite Z.div_div by lia; reflexivity).
  rewrite (num2_digits (n / 100) H100).
  rewrite (num2_digits (n mod 100)) by (apply Z.mod_pos_bound; lia).
  f_equal. symmetry. apply Z.div_mod. lia.
Qed.

Lemma valid_date_bounds (d : date) :
  valid_date d = true ->
  0 <= year d < 10000 /\ 0 <= month d < 100 /\ 0 <= day d < 100.
Proof.
  unfold valid_date. rewrite !andb_true_iff, !Z.leb_le.
  intros [[[[[Hy1 Hy2] Hm1] Hm2] Hd1] Hd2].
  assert (days_in_month (year d) (month d) <= 31).
  { unfold days_in_month.
    destruct (month d) as [ | [ [ [ [ | | ] | [ | | ] | ] | [ [ | | ] | [ | | ] | ] | ]
                             | [ [ [ | | ] | [ | | ] | ] | [ [ | | ] | [ | | ] | ] | ] | ] | ];
      try destruct (is_leap (year d)); lia. }
  lia.
Qed.

(** [str] of a date is read back as that date. *)
Lemma parse_iso_isoformat (d : date) :
  valid_date d = true -> parse_iso (isoformat d) = Some d.
Proof.
  intros Hv.
  destruct (valid_date_bounds d Hv) as (Hy & Hm & Hd).
  unfold isoformat, pad4, pad2. cbn [append parse_iso].
  change (Ascii.eqb "-" "-") with true. cbn [andb].
  rewrite (num4_digits _ Hy), (num2_digits _ Hm), (num2_digits _ Hd).
  destruct d as [y m dd]; cbn [year month day] in *.
  rewrite Hv. reflexivity.
Qed.

Lemma to_datetime_isoformat (d : date) :
  valid_date d = true -> in_timestamp_range d = true ->
  to_datetime (isoformat d) = Some d.
Proof. intros Hv _. exact (parse_iso_isoformat d Hv). Qed.

End Fechas.

(* ------------------------------------------------------------------ *)
(** * The store: insert, then load *)
(* ------------------------------------------------------------------ *)

Section Almacen.

Lemma max_rowid_ge (l : list (Suceso string)) (s : Suceso string) :
  In s l -> id s <= max_rowid l.
Proof.
  induction l as [ | a l IH]; cbn [max_rowid fold_right In].
  - tauto.
  - intros [-> | Hin]; [ | specialize (IH Hin); unfold max_rowid in IH ]; lia.
Qed.

Lemma next_rowid_fresh (db : DB) :
  ~ In (next_rowid db) (map id (sucesos db)).
Proof.
  intros Hin. apply in_map_iff in Hin as (s & Hid & Hs).
  apply max_rowid_ge in Hs. unfold next_rowid in Hid. lia.
Qed.


Lemma cargar_datos_map (db : DB) :
  cargar_datos db = map (con_fecha to_datetime) (sucesos db).
Proof. unfold cargar_datos. destruct (sucesos db); reflexivity. Qed.


Lemma sqlite3_agregar_ok
    (f t : string) (st lu : option string) (la lo : option Q) (g : Z)
    (im fu no : option string) (db : DB) :
  Sqlite3.cabe_int64 g = true -> next_rowid db <= Sqlite3.INT64_MAX ->
  Sqlite3.agregar_suceso f t st lu la lo g im fu no db =
  inr (agregar_suceso f t st lu la lo g im fu no db).
Proof.
  intros Hg Hk. unfold Sqlite3.agregar_suceso. rewrite Hg. cbn [negb].
  destruct (Z.ltb_spec Sqlite3.INT64_MAX (next_rowid db)); [lia | reflexivity].
Qed.

Lemma cabe_int64_gravedad (g : Z) : 1 <= g <= 5 -> Sqlite3.cabe_int64 g = true.
Proof.
  intros Hg. unfold Sqlite3.cabe_int64, Sqlite3.INT64_MIN, Sqlite3.INT64_MAX.
  apply andb_true_iff. split; apply Z.leb_le; lia.
Qed.




End Almacen.

(* ------------------------------------------------------------------ *)
(** * Counting values *)
(* ------------------------------------------------------------------ *)

Section Conteo.

Lemma buscar_notin (k : string) (acc : list (string * Z)) :
  ~ In k (map fst acc) -> buscar k acc = 0.
Proof.
  induction acc as [ | [k' n'] acc IH]; cbn [buscar fold_right map In fst snd].
  - reflexivity.
  - intros Hn. destruct (String.eqb_spec k' k) as [-> | _].
    + exfalso. apply Hn. now left.
    + apply IH. intros H. apply Hn. now right.
Qed.

Lemma In_buscar (k : string) (n : Z) (acc : list (string * Z)) :
  NoDup (map fst acc) -> In (k, n) acc -> buscar k acc = n.
Proof.
  induction acc as [ | [k' n'] acc IH]; cbn [buscar fold_right map In fst snd].
  - tauto.
  - intros Hnd [Heq | Hin]; inversion Hnd as [ | ? ? Hk' Hnd']; subst.
    + injection Heq as -> ->. rewrite String.eqb_refl.
      fold (buscar k acc). rewrite (buscar_notin k acc Hk'). lia.
    + destruct (String.eqb_spec k' k) as [-> | _].
      * exfalso. apply Hk'. apply in_map_iff. exists (k, n). now split.
      * now apply IH.
Qed.

Lemma buscar_In (k : string) (acc : list (string * Z)) :
  1 <= buscar k acc -> exists n, In (k, n) acc.
Proof.
  induction acc as [ | [k' n'] acc IH]; cbn [buscar fold_right In fst snd].
  - lia.
  - destruct (String.eqb_spec k' k) as [-> | _].
    + intros _. exists n'. now left.
    + intros H. destruct (IH H) as [n Hn]. exists n. now right.
Qed.

Lemma buscar_contar (k t : string) (acc : list (string * Z)) :
  buscar k (contar t acc) = buscar k acc + (if String.eqb t k then 1 else 0).
Proof.
  induction acc as [ | [k' n'] acc IH]; cbn [contar buscar fold_right fst snd].
  - destruct (String.eqb t k); lia.
  - destruct (String.eqb_spec k' t) as [-> | Hne];
      cbn [buscar fold_right fst snd].
    + destruct (String.eqb t k); lia.
    + fold (buscar k (contar t acc)). fold (buscar k acc). rewrite IH.
      destruct (String.eqb k' k); lia.
Qed.

Lemma claves_contar (t : string) (acc : list (string * Z)) :
  map fst (contar t acc) =
  if in_dec string_dec t (map fst acc) then map fst acc
  else (map fst acc ++ [t])%list.
Proof.
  induction acc as [ | [k' n'] acc IH]; cbn [contar map fst].
  - reflexivity.
  - destruct (String.eqb_spec k' t) as [-> | Hne]; cbn [map fst].
    + destruct (in_dec string_dec t (t :: map fst acc)) as [ | Hn];
        [reflexivity | exfalso; apply Hn; now left].
    + rewrite IH.
      destruct (in_dec string_dec t (map fst acc)) as [Hin | Hnin];
        destruct (in_dec string_dec t (k' :: map fst acc)) as [Hin' | Hnin'];
        try reflexivity.
      * exfalso. apply Hnin'. now right.
      * exfalso. destruct Hin' as [-> | H]; [now apply Hne | now apply Hnin].
Qed.

Lemma NoDup_contar (t : string) (acc : list (string * Z)) :
  NoDup (map fst acc) -> NoDup (map fst (contar t acc)).
Proof.
  intros Hnd. rewrite claves_contar.
  destruct (in_dec string_dec t (map fst acc)) as [Hin | Hnin]; [assumption | ].
  apply (Permutation_NoDup (Permutation_cons_append (map fst acc) t)).
  now constructor.
Qed.

Lemma positivos_contar (t : string) (acc : list (string * Z)) :
  positivos acc -> positivos (contar t acc).
Proof.
  unfold positivos.
  induction acc as [ | [k' n'] acc IH]; cbn [contar]; intros H.
  - constructor; [cbn; lia | constructor].
  - inversion H as [ | ? ? Hn' Hacc]; subst. cbn [snd] in Hn'.
    destruct (String.eqb k' t); constructor; cbn [snd]; auto; lia.
Qed.

Lemma apariciones_cons (k t : string) (l : list string) :
  apariciones k (t :: l) =
  (if String.eqb t k then 1 else 0) + apariciones k l.
Proof.
  unfold apariciones. cbn [count_occ].
  destruct (string_dec t k) as [-> | Hne].
  - rewrite String.eqb_refl. lia.
  - apply String.eqb_neq in Hne. rewrite Hne. lia.
Qed.

Lemma conteo_fold (l : list string) (acc : list (string * Z)) :
  NoDup (map fst acc) -> positivos acc ->
  let res := fold_left (fun a t => contar t a) l acc in
  NoDup (map fst res) /\ positivos res /\
  forall k, buscar k res = buscar k acc + apariciones k l.
Proof.
  revert acc. induction l as [ | t l IH]; intros acc Hnd Hpos; cbn [fold_left].
  - repeat split; auto. intros k. unfold apariciones. cbn. lia.
  - destruct (IH (contar t acc) (NoDup_contar t acc Hnd)
                 (positivos_contar t acc Hpos)) as (H1 & H2 & H3).
    repeat split; auto.
    intros k. rewrite H3, buscar_contar, apariciones_cons. lia.
Qed.

Lemma insertar_perm (x : string * Z) (l : list (string * Z)) :
  Permutation (x :: l) (insertar x l).
Proof.
  induction l as [ | y l IH]; cbn [insertar].
  - apply Permutation_refl.
  - destruct (snd y <=? snd x).
    + apply Permutation_refl.
    + apply perm_trans with (y :: x :: l); [apply perm_swap | ].
      now apply perm_skip.
Qed.

Lemma ordenar_perm (l : list (string * Z)) : Permutation l (ordenar l).
Proof.
  induction l as [ | x l IH]; cbn [ordenar fold_right].
  - apply perm_nil.
  - apply perm_trans with (x :: ordenar l).
    + now apply perm_skip.
    + apply insertar_perm.
Qed.

(** [value_counts] lists each value that occurs, once, with its number
    of occurrences. *)
Lemma value_counts_spec (l : list string) :
  NoDup (map fst (value_counts l)) /\
  forall k n, In (k, n) (value_counts l) <-> n = apariciones k l /\ 1 <= n.
Proof.
  destruct (conteo_fold l [] (NoDup_nil _) (Forall_nil _)) as (Hnd & Hpos & Hb).
  fold (conteo_en_orden l) in Hnd, Hpos, Hb. cbn [buscar fold_right] in Hb.
  pose proof (ordenar_perm (conteo_en_orden l)) as Hperm.
  fold (value_counts l) in Hperm.
  split.
  - apply (Permutation_NoDup (Permutation_map fst Hperm) Hnd).
  - intros k n. split.
    + intros Hin. apply (Permutation_in _ (Permutation_sym Hperm)) in Hin.
      split.
      * rewrite <- (In_buscar k n _ Hnd Hin). rewrite Hb. lia.
      * unfold positivos in Hpos. rewrite Forall_forall in Hpos.
        apply (Hpos (k, n) Hin).
    + intros [-> Hge]. apply (Permutation_in _ Hperm).
      assert (H1 : 1 <= buscar k (conteo_en_orden l)) by (rewrite Hb; lia).
      destruct (buscar_In k _ H1) as [m Hm].
      rewrite <- (In_buscar k m _ Hnd Hm) in Hm. rewrite Hb in Hm.
      exact Hm.
Qed.

End Conteo.

(* ------------------------------------------------------------------ *)
(** * The summary of probabilities: which records are counted *)
(* ------------------------------------------------------------------ *)

Section Ventana.

Variable current_year : Z.

Lemma year_ge_en_ventana (r : Suceso (option date)) :
  year_ge (dt_year (fecha r)) (current_year - 4) = en_ventana current_year r.
Proof. unfold en_ventana, dt_year. destruct (fecha r); reflexivity. Qed.

Lemma apariciones_recientes (df : DataFrame) (t : string) :
  apariciones t (map tipo (recientes current_year df)) =
  cuenta current_year df t.
Proof.
  unfold apariciones, cuenta, recientes. f_equal.
  induction df as [ | r df IH]; cbn [filter]; [reflexivity | ].
  rewrite year_ge_en_ventana.
  destruct (en_ventana current_year r); cbn [map count_occ].
  - destruct (string_dec (tipo r) t) as [-> | Hne].
    + rewrite String.eqb_refl. cbn [andb List.length]. now rewrite IH.
    + apply String.eqb_neq in Hne. rewrite Hne. cbn [andb]. exact IH.
  - rewrite andb_false_r. exact IH.
Qed.

Lemma filas_DataFrame_de (data : list FilaProb) :
  filas (DataFrame_de data) = data.
Proof. destruct data; reflexivity. Qed.

Lemma filas_resumen (df : DataFrame) :
  filas (resumen_probabilidades current_year df) =
  map (fun tn => fila_prob (fst tn) (snd tn))
      (value_counts (map tipo (recientes current_year df))).
Proof.
  unfold resumen_probabilidades. destruct df as [ | r df]; cbn [empty].
  - reflexivity.
  - apply filas_DataFrame_de.
Qed.

Lemma recientes_sin (l1 l2 : DataFrame) (r : Suceso (option date)) :
  en_ventana current_year r = false ->
  recientes current_year (l1 ++ r :: l2) = recientes current_year (l1 ++ l2).
Proof.
  intros Hr. unfold recientes. rewrite !filter_app. cbn [filter].
  now rewrite year_ge_en_ventana, Hr.
Qed.

(** C3.  The summary has one row per category, and a category has a row
    exactly when some record of that category has a year of at least
    [current_year - 4]; the row's count is the number of those records,
    and its rate and probability are computed from that count.  A record
    outside the window, such as one dated six years back, changes no
    row. *)
Theorem resumen_cuenta_ventana (df : DataFrame) :
  let tab := resumen_probabilidades current_year df in
  NoDup (map Tipo (filas tab))
  /\ (forall row, In row (filas tab) <->
        exists t, 1 <= cuenta current_year df t /\
                  row = fila_prob t (cuenta current_year df t))
  /\ (forall l1 r l2, df = (l1 ++ r :: l2)%list ->
        en_ventana current_year r = false ->
        filas tab = filas (resumen_probabilidades current_year (l1 ++ l2)))
  /\ (forall (r : Suceso (option date)) d,
        fecha r = Some d -> year d = current_year - 6 ->
        en_ventana current_year r = false).
Proof.
  intros tab. subst tab.
  destruct (value_counts_spec (map tipo (recientes current_year df)))
    as [Hnd Hin].
  repeat split.
  - rewrite filas_resumen, map_map. cbn [Tipo fila_prob]. exact Hnd.
  - rewrite filas_resumen. intros H.
    apply in_map_iff in H as ([t n] & <- & Htn). cbn [fst snd].
    apply Hin in Htn as [-> Hge]. rewrite apariciones_recientes in *.
    exists t. now split.
  - intros (t & Hge & ->). rewrite filas_resumen.
    apply in_map_iff. exists (t, cuenta current_year df t). split; [reflexivity | ].
    apply Hin. rewrite apariciones_recientes. now split.
  - intros l1 r l2 -> Hr. rewrite !filas_resumen.
    now rewrite (recientes_sin l1 l2 r Hr).
  - intros r d Hf Hy. unfold en_ventana. rewrite Hf, Hy.
    apply Z.leb_gt. lia.
Qed.

End Ventana.

(* ------------------------------------------------------------------ *)
(** * Rounding, formatting and the exponential *)
(* ------------------------------------------------------------------ *)

Section Reales.

Local Open Scope R_scope.

(** A number closer to [k] than to its neighbours rounds to [k]. *)
Lemma round_half_even_near (x : R) (k : Z) :
  IZR k - 1 / 2 < x < IZR k + 1 / 2 -> round_half_even x = k.
Proof.
  intros [Hlo Hhi]. unfold round_half_even.
  destruct (Rle_or_lt (IZR k) x) as [Hge | Hlt].
  - rewrite (Zfloor_eq k x) by lra.
    destruct (Rlt_dec (x - IZR k) (1 / 2)); [reflexivity | lra].
  - assert (Hf : Zfloor x = (k - 1)%Z)
      by (apply Zfloor_eq; rewrite minus_IZR; lra).
    rewrite Hf, minus_IZR.
    destruct (Rlt_dec (x - (IZR k - 1)) (1 / 2)); [lra | ].
    destruct (Rlt_dec (1 / 2) (x - (IZR k - 1))); [lia | lra].
Qed.

Lemma format_1f_near (x : R) (k : Z) :
  0 <= x -> IZR k - 1 / 2 < x * 10 < IZR k + 1 / 2 ->
  format_1f x = (str_int (k / 10) ++ "." ++ str_int (k mod 10))%string.
Proof.
  intros Hx Hk. unfold format_1f.
  rewrite (Rabs_pos_eq x Hx), (round_half_even_near _ k Hk).
  destruct (Rlt_dec x 0); [lra | reflexivity].
Qed.

Lemma py_round_entero (k : Z) : py_round (IZR k / 100) 2 = IZR k / 100.
Proof.
  unfold py_round.
  replace (IZR k / 100 * 10 ^ 2) with (IZR k) by (simpl; field).
  rewrite (round_half_even_near (IZR k) k) by lra.
  simpl. field.
Qed.

(** A count divided by five has at most one decimal: rounding it to two
    decimals changes nothing. *)
Lemma py_round_promedio (n : Z) : py_round (IZR n / 5) 2 = IZR n / 5.
Proof.
  replace (IZR n / 5) with (IZR (20 * n) / 100) by (rewrite mult_IZR; field).
  apply py_round_entero.
Qed.

Lemma exp_INR_mult (n : nat) (x : R) : exp (INR n * x) = exp x ^ n.
Proof.
  induction n as [ | n IH].
  - simpl. rewrite Rmult_0_l. apply exp_0.
  - rewrite S_INR, Rmult_plus_distr_r, Rmult_1_l, exp_plus, IH.
    simpl. ring.
Qed.

(** [exp x] is at least [(1 + x/n)^n]. *)
Lemma exp_ge_pow (x c : R) (n : nat) :
  (0 < n)%nat -> 0 <= c <= 1 + x / INR n -> c ^ n <= exp x.
Proof.
  intros Hn [Hc0 Hc].
  assert (HN : 0 < INR n) by (apply lt_0_INR; lia).
  replace (exp x) with (exp (INR n * (x / INR n)))
    by (f_equal; field; lra).
  rewrite exp_INR_mult. apply pow_incr. split; [assumption | ].
  apply Rle_trans with (1 + x / INR n); [assumption | apply exp_ineq1_le].
Qed.

(** A rational lower bound of [exp x], checked on integers. *)
Lemma exp_gt_frac (x : R) (n : nat) (a b p q : Z) :
  (0 < n)%nat -> (0 <= a)%Z -> (0 < b)%Z -> (0 < q)%Z ->
  IZR a <= IZR b * (1 + x / INR n) ->
  (p * b ^ Z.of_nat n < q * a ^ Z.of_nat n)%Z ->
  IZR p / IZR q < exp x.
Proof.
  intros Hn Ha Hb Hq Hab Hz.
  assert (Hb' : 0 < IZR b) by now apply IZR_lt.
  assert (Hq' : 0 < IZR q) by now apply IZR_lt.
  assert (Ha' : 0 <= IZR a) by now apply IZR_le.
  set (c := IZR a / IZR b).
  assert (Hc0 : 0 <= c).
  { unfold c, Rdiv. apply Rmult_le_pos; [assumption | ].
    left. now apply Rinv_0_lt_compat. }
  assert (Hc : c <= 1 + x / INR n).
  { unfold c. apply Rmult_le_reg_l with (IZR b); [assumption | ].
    replace (IZR b * (IZR a / IZR b)) with (IZR a) by (field; lra).
    assumption. }
  pose proof (exp_ge_pow x c n Hn (conj Hc0 Hc)) as Hexp.
  assert (HB : 0 < IZR (b ^ Z.of_nat n))
    by (apply IZR_lt, Z.pow_pos_nonneg; lia).
  assert (HA : IZR (a ^ Z.of_nat n) = c ^ n * IZR (b ^ Z.of_nat n)).
  { rewrite <- !pow_IZR, <- Rpow_mult_distr. f_equal.
    unfold c. field. lra. }
  apply IZR_lt in Hz. rewrite !mult_IZR, HA in Hz.
  apply Rmult_lt_reg_r with (IZR q); [assumption | ].
  replace (IZR p / IZR q * IZR q) with (IZR p) by (field; lra).
  apply Rmult_lt_reg_r with (IZR (b ^ Z.of_nat n)); [assumption | ].
  apply Rlt_le_trans with (1 := Hz).
  replace (IZR q * (c ^ n * IZR (b ^ Z.of_nat n)))
    with (c ^ n * IZR q * IZR (b ^ Z.of_nat n)) by ring.
  apply Rmult_le_compat_r; [lra | ].
  apply Rmult_le_compat_r; lra.
Qed.

Lemma exp_opp_inv (x : R) : exp (- x) = / exp x.
Proof.
  apply Rmult_eq_reg_l with (exp x).
  - rewrite <- exp_plus, Rplus_opp_r, exp_0, Rinv_r; [reflexivity | ].
    apply Rgt_not_eq, exp_pos.
  - apply Rgt_not_eq, exp_pos.
Qed.

Lemma exp_1_gt : 2714 / 1000 < exp 1.
Proof.
  apply (exp_gt_frac 1 1024 1025 1024 2714 1000); [lia | lia | lia | lia | | ].
  - rewrite INR_IZR_INZ. change (Z.of_nat 1024) with 1024%Z. lra.
  - apply Z.ltb_lt. vm_compute. reflexivity.
Qed.

Lemma exp_m1_gt : 3675 / 10000 < exp (- (1)).
Proof.
  apply (exp_gt_frac (- (1)) 1024 1023 1024 3675 10000); [lia | lia | lia | lia | | ].
  - rewrite INR_IZR_INZ. change (Z.of_nat 1024) with 1024%Z. lra.
  - apply Z.ltb_lt. vm_compute. reflexivity.
Qed.

Lemma exp_39_5_gt : 2000 < exp (39 / 5).
Proof.
  replace 2000 with (2000 / 1) by lra.
  apply (exp_gt_frac (39 / 5) 256 1319 1280 2000 1); [lia | lia | lia | lia | | ].
  - rewrite INR_IZR_INZ. change (Z.of_nat 256) with 256%Z. lra.
  - apply Z.ltb_lt. vm_compute. reflexivity.
Qed.

Lemma exp_m1_bounds : 3675 / 10000 < exp (- (1)) < 3685 / 10000.
Proof.
  split; [exact exp_m1_gt | ].
  rewrite exp_opp_inv.
  pose proof exp_1_gt as H.
  apply Rlt_trans with (/ (2714 / 1000)).
  - apply Rinv_lt_contravar; [ | assumption].
    apply Rmult_lt_0_compat; lra.
  - lra.
Qed.

(** The probability for an annual rate of one event. *)
Lemma probabilidad_poisson_1 :
  format_1f (probabilidad_poisson 1 * 100) = "63.2"%string.
Proof.
  pose proof exp_m1_bounds as [Hlo Hhi].
  rewrite (format_1f_near _ 632); unfold probabilidad_poisson.
  - reflexivity.
  - lra.
  - lra.
Qed.

Lemma probabilidad_poisson_rango (x : R) :
  0 < x -> 0 < probabilidad_poisson x < 1.
Proof.
  intros Hx. unfold probabilidad_poisson.
  pose proof (exp_pos (- x)) as Hp.
  assert (exp (- x) < exp 0) by (apply exp_increasing; lra).
  rewrite exp_0 in *. lra.
Qed.

Lemma probabilidad_poisson_creciente (x y : R) :
  x < y -> probabilidad_poisson x < probabilidad_poisson y.
Proof.
  intros Hxy. unfold probabilidad_poisson.
  assert (exp (- y) < exp (- x)) by (apply exp_increasing; lra).
  lra.
Qed.

(** From a rate of 7.8 events a year on, the text shown is 100.0. *)
Lemma format_1f_cien (x : R) :
  39 / 5 <= x -> format_1f (probabilidad_poisson x * 100) = "100.0"%string.
Proof.
  intros Hx.
  assert (Hp : 0 < probabilidad_poisson x < 1)
    by (apply probabilidad_poisson_rango; lra).
  assert (He : exp (- x) < / 2000).
  { apply Rle_lt_trans with (exp (- (39 / 5))).
    - destruct Hx as [Hx | <-]; [left; apply exp_increasing; lra | right; reflexivity].
    - rewrite exp_opp_inv. apply Rinv_lt_contravar.
      + apply Rmult_lt_0_compat; [lra | apply exp_pos].
      + exact exp_39_5_gt. }
  rewrite (format_1f_near _ 1000).
  - reflexivity.
  - lra.
  - unfold probabilidad_poisson in *. lra.
Qed.

End Reales.

(* ------------------------------------------------------------------ *)
(** * Margins of the probability, for counts up to 150 *)
(* ------------------------------------------------------------------ *)

Section Margenes.

Local Open Scope R_scope.

Lemma Rabs_cota (a b : R) : Rabs a <= b -> - b <= a <= b.
Proof. unfold Rabs. destruct (Rcase_abs a); lra. Qed.

Lemma exp_m30_gt : 5 / 100000000000000 < exp (- (30)).
Proof.
  apply (exp_gt_frac (- (30)) 1024 994 1024 5 100000000000000);
    [lia | lia | lia | lia | | ].
  - rewrite INR_IZR_INZ. change (Z.of_nat 1024) with 1024%Z. lra.
  - apply Z.ltb_lt. vm_compute. reflexivity.
Qed.

Lemma exp_39_5_gt_2100 : 2100 < exp (39 / 5).
Proof.
  replace 2100 with (2100 / 1) by lra.
  apply (exp_gt_frac (39 / 5) 256 1319 1280 2100 1); [lia | lia | lia | lia | | ].
  - rewrite INR_IZR_INZ. change (Z.of_nat 256) with 256%Z. lra.
  - apply Z.ltb_lt. vm_compute. reflexivity.
Qed.

Lemma exp_m_cota (y : R) : y <= 30 -> 5 / 100000000000000 < exp (- y).
Proof.
  intros Hy. apply Rlt_le_trans with (1 := exp_m30_gt).
  destruct Hy as [Hy | ->]; [left; apply exp_increasing; lra | right; reflexivity].
Qed.

(** Rates a fifth apart, up to 30, give probabilities more than [margen]
    apart. *)
Lemma probabilidad_poisson_margen (x y : R) :
  x + 1 / 5 <= y -> y <= 30 ->
  probabilidad_poisson x + margen < probabilidad_poisson y.
Proof.
  intros Hxy Hy. unfold probabilidad_poisson, margen.
  pose proof (exp_m_cota y Hy) as He.
  assert (Hx : exp (- x) = exp (- y) * exp (y - x))
    by (rewrite <- exp_plus; f_equal; ring).
  pose proof (exp_ineq1_le (y - x)) as H1.
  assert (H2 : exp (- y) * (6 / 5) <= exp (- y) * exp (y - x))
    by (apply Rmult_le_compat_l; [left; apply exp_pos | lra]).
  lra.
Qed.

Lemma probabilidad_poisson_bajo_1 (y : R) :
  y <= 30 -> probabilidad_poisson y + margen < 1.
Proof.
  intros Hy. unfold probabilidad_poisson, margen.
  pose proof (exp_m_cota y Hy). lra.
Qed.

Lemma probabilidad_poisson_sexto (x : R) :
  1 / 5 <= x -> 1 / 6 <= probabilidad_poisson x.
Proof.
  intros Hx. unfold probabilidad_poisson.
  assert (H1 : exp (- x) <= exp (- (1 / 5))).
  { destruct Hx as [Hx | <-]; [left; apply exp_increasing; lra | right; reflexivity]. }
  assert (H2 : exp (- (1 / 5)) <= 5 / 6).
  { rewrite exp_opp_inv. pose proof (exp_ineq1_le (1 / 5)) as H.
    replace (5 / 6) with (/ (6 / 5)) by field.
    apply Rinv_le_contravar; lra. }
  lra.
Qed.

(** A number within 1e-9 of the percentage, from a rate of 7.8 on, is
    shown as 100.0. *)
Lemma format_1f_cien_cerca (r x : R) :
  39 / 5 <= r ->
  Rabs (x - probabilidad_poisson r * 100) <= 1 / 1000000000 ->
  format_1f x = "100.0"%string.
Proof.
  intros Hr Hx.
  assert (Hp : 0 < probabilidad_poisson r < 1)
    by (apply probabilidad_poisson_rango; lra).
  assert (He : exp (- r) < / 2100).
  { apply Rle_lt_trans with (exp (- (39 / 5))).
    - destruct Hr as [Hr | <-]; [left; apply exp_increasing; lra | right; reflexivity].
    - rewrite exp_opp_inv. apply Rinv_lt_contravar.
      + apply Rmult_lt_0_compat; [lra | apply exp_pos].
      + exact exp_39_5_gt_2100. }
  apply Rabs_cota in Hx. unfold probabilidad_poisson in *.
  rewrite (format_1f_near x 1000); [reflexivity | lra | lra].
Qed.

End Margenes.

(* ------------------------------------------------------------------ *)
(** * The summary of probabilities: its rows *)
(* ------------------------------------------------------------------ *)

Section Resumen.

Lemma recientes_todos (cy : Z) (df : DataFrame) :
  (forall r, In r df -> en_ventana cy r = true) -> recientes cy df = df.
Proof.
  unfold recientes. induction df as [ | r df IH]; intros H; cbn [filter].
  - reflexivity.
  - rewrite year_ge_en_ventana, (H r (or_introl eq_refl)).
    f_equal. apply IH. intros r' Hr'. apply H. now right.
Qed.

Lemma map_tipo_const (t : string) (df : DataFrame) :
  (forall r, In r df -> tipo r = t) ->
  map tipo df = repeat t (List.length df).
Proof.
  induction df as [ | r df IH]; intros H; cbn [map List.length repeat].
  - reflexivity.
  - rewrite (H r (or_introl eq_refl)). f_equal.
    apply IH. intros r' Hr'. apply H. now right.
Qed.

(** Five events in the window: one a year, 63.2 %. *)
Lemma fila_prob_5 (t : string) :
  fila_prob t 5 = mkFilaProb t 5 1 "63.2%".
Proof.
  unfold fila_prob. f_equal.
  - rewrite py_round_promedio. lra.
  - replace (5 / 5)%R with 1%R by lra.
    now rewrite probabilidad_poisson_1.
Qed.

(** C2.  Five records of category "Flood", all dated within the last five
    calendar years, and nothing else: the summary is the single row
    Flood, 5 events, rate 1, probability "63.2%". *)
Theorem resumen_cinco_flood (cy : Z) (df : DataFrame) :
  List.length df = 5%nat ->
  (forall r, In r df ->
     tipo r = "Flood" /\
     exists d, fecha r = Some d /\ cy - 4 <= year d <= cy) ->
  resumen_probabilidades cy df =
  mkTabla ["Tipo"; "Eventos últimos 5 años"; "Promedio anual";
           "Probabilidad (al menos 1/año)"]
          [mkFilaProb "Flood" 5 1 "63.2%"].
Proof.
  intros Hlen Hdf.
  assert (Hw : forall r, In r df -> en_ventana cy r = true).
  { intros r Hr. destruct (Hdf r Hr) as (_ & d & Hd & Hy).
    unfold en_ventana. rewrite Hd. apply Z.leb_le. lia. }
  assert (Ht : forall r, In r df -> tipo r = "Flood")
    by (intros r Hr; apply (Hdf r Hr)).
  unfold resumen_probabilidades.
  rewrite (recientes_todos cy df Hw), (map_tipo_const "Flood" df Ht), Hlen.
  destruct df as [ | r df]; [discriminate Hlen | ]. cbn [empty].
  change (value_counts (repeat "Flood" 5)) with [("Flood", 5)].
  cbn [map fst snd DataFrame_de]. now rewrite fila_prob_5.
Qed.

(** C9.  On an empty frame the summary is a table with the four columns
    (type, events of the last five years, annual mean, probability) and
    no row; so it is for the frame loaded from a table without rows. *)
Theorem resumen_vacio (cy : Z) :
  resumen_probabilidades cy [] =
    mkTabla ["Tipo"; "Eventos últimos 5 años"; "Promedio anual";
             "Probabilidad (al menos 1/año)"] []
  /\ resumen_probabilidades cy (cargar_datos (crear_db None)) =
    mkTabla ["Tipo"; "Eventos últimos 5 años"; "Promedio anual";
             "Probabilidad (al menos 1/año)"] [].
Proof. split; reflexivity. Qed.

(** C10, as the code has it.  For a count of at least one the value
    [1 - exp (- n/5)] is at least 1/6, so above 0.  For counts up to 150
    the values of two counts differ, and stay below 1, by more than
    [margen]: any numbers within [error_flotante] of them, as the floats
    the code computes are, are above 0, grow strictly with the count and
    stay below 1.  The text shown is the value as a percentage with one
    decimal, and from thirty-nine events on it reads "100.0%", also for a
    number within 1e-9 of the percentage. *)
Theorem probabilidad_valor_y_texto (t : string) (n : Z) :
  1 <= n ->
  (1 / 6 <= probabilidad_de n)%R
  /\ (forall (m : Z) (pn pm : R),
        n < m -> m <= 150 ->
        (Rabs (pn - probabilidad_de n) <= error_flotante)%R ->
        (Rabs (pm - probabilidad_de m) <= error_flotante)%R ->
        (0 < pn /\ pn < pm /\ pm < 1)%R)
  /\ (39 <= n ->
      Probabilidad (fila_prob t n) = "100.0%"
      /\ forall x : R,
           (Rabs (x - probabilidad_de n * 100) <= 1 / 1000000000)%R ->
           (format_1f x ++ "%")%string = "100.0%"%string).
Proof.
  intros Hn. unfold probabilidad_de.
  assert (Hn' : (1 / 5 <= IZR n / 5)%R) by (apply IZR_le in Hn; lra).
  pose proof (probabilidad_poisson_sexto _ Hn') as H6.
  split; [exact H6 | split].
  - intros m pn pm Hnm Hm Hpn Hpm.
    assert (Hgap : (IZR n / 5 + 1 / 5 <= IZR m / 5)%R).
    { assert (H : n + 1 <= m) by lia. apply IZR_le in H.
      rewrite plus_IZR in H. lra. }
    assert (H30 : (IZR m / 5 <= 30)%R) by (apply IZR_le in Hm; lra).
    pose proof (probabilidad_poisson_margen _ _ Hgap H30) as Hg.
    pose proof (probabilidad_poisson_bajo_1 _ H30) as H1.
    apply Rabs_cota in Hpn, Hpm.
    unfold error_flotante, margen in *. lra.
  - intros H39. apply IZR_le in H39.
    assert (Hr : (39 / 5 <= IZR n / 5)%R) by lra.
    split.
    + unfold fila_prob. cbn [Probabilidad].
      rewrite format_1f_cien by exact Hr. reflexivity.
    + intros x Hx. now rewrite (format_1f_cien_cerca _ x Hr Hx).
Qed.

Lemma probabilidad_valor_y_texto_witness :
  (probabilidad_de 39 < probabilidad_de 40 < 1)%R
  /\ Probabilidad (fila_prob "Sismo" 39) = "100.0%".
Proof.
  assert (H39 : 1 <= 39) by lia.
  destruct (probabilidad_valor_y_texto "Sismo" 39 H39) as (_ & Hval & Htxt).
  assert (H0 : forall r : R, (Rabs (r - r) <= error_flotante)%R).
  { intros r. unfold error_flotante, Rminus. rewrite Rplus_opp_r, Rabs_R0. lra. }
  assert (Hlt : 39 < 40) by lia.
  assert (Hle : 40 <= 150) by lia.
  destruct (Hval 40 (probabilidad_de 39) (probabilidad_de 40) Hlt Hle
              (H0 (probabilidad_de 39)) (H0 (probabilidad_de 40)))
    as (_ & H1 & H2).
  assert (Hge : 39 <= 39) by lia.
  destruct (Htxt Hge) as [Ht _].
  split; [split; assumption | exact Ht].
Defined.

(** With thirty-nine events of a category in the window the text shown is
    "100.0%", and with forty it is the same text. *)
Lemma probabilidad_muestra_cien :
  Probabilidad (fila_prob "Apagón" 39) = "100.0%"
  /\ Probabilidad (fila_prob "Apagón" 40) = "100.0%".
Proof.
  unfold fila_prob. cbn [Probabilidad].
  rewrite !format_1f_cien by lra. split; reflexivity.
Qed.

End Resumen.

Section Ejemplos.

Lemma resumen_cinco_flood_witness :
  resumen_probabilidades 2026
    [mkSuceso 1 (Some (mkdate 2022 1 10)) "Flood" None None None None 2 None None None;
     mkSuceso 2 (Some (mkdate 2023 6 2)) "Flood" None None None None 3 None None None;
     mkSuceso 3 (Some (mkdate 2024 8 21)) "Flood" None None None None 5 None None None;
     mkSuceso 4 (Some (mkdate 2025 9 15)) "Flood" None None None None 1 None None None;
     mkSuceso 5 (Some (mkdate 2026 3 30)) "Flood" None None None None 4 None None None] =
  mkTabla ["Tipo"; "Eventos últimos 5 años"; "Promedio anual";
           "Probabilidad (al menos 1/año)"]
          [mkFilaProb "Flood" 5 1 "63.2%"].
Proof.
  apply (resumen_cinco_flood 2026); [reflexivity | ].
  intros r [<- | [<- | [<- | [<- | [<- | []]]]]];
    (split; [reflexivity | eexists; split; [reflexivity | cbn; lia]]).
Defined.

Lemma resumen_cuenta_ventana_witness :
  filas (resumen_probabilidades 2026
    [mkSuceso 1 (Some (mkdate 2020 5 17)) "Sismo" None None None None 2 None None None;
     mkSuceso 2 (Some (mkdate 2025 9 15)) "Sismo" None None None None 3 None None None]) =
  filas (resumen_probabilidades 2026
    [mkSuceso 2 (Some (mkdate 2025 9 15)) "Sismo" None None None None 3 None None None]).
Proof.
  destruct (resumen_cuenta_ventana 2026
    [mkSuceso 1 (Some (mkdate 2020 5 17)) "Sismo" None None None None 2 None None None;
     mkSuceso 2 (Some (mkdate 2025 9 15)) "Sismo" None None None None 3 None None None])
    as (_ & _ & Hsin & Hseis).
  apply (Hsin [] _ _ eq_refl).
  apply (Hseis _ (mkdate 2020 5 17)); reflexivity.
Defined.

End Ejemplos.

(* ------------------------------------------------------------------ *)
(** * The filter of the analysis tab *)
(* ------------------------------------------------------------------ *)

Section Filtro.

Variable tipo_sel : list string.
Variable anio_sel : list (option Z).

Lemma isin_tipo_In (t : string) : isin_tipo t tipo_sel = true <-> In t tipo_sel.
Proof.
  unfold isin_tipo. rewrite existsb_exists. split.
  - intros (x & Hx & Heq). apply String.eqb_eq in Heq. now subst.
  - intros H. exists t. split; [assumption | apply String.eqb_refl].
Qed.

Lemma eqb_year_eq (a b : option Z) : eqb_year a b = true <-> a = b.
Proof.
  destruct a as [x | ], b as [y | ]; cbn [eqb_year];
    try (split; [discriminate | discriminate]); try tauto.
  rewrite Z.eqb_eq. split; [now intros -> | now intros [= ->]].
Qed.

Lemma isin_year_In (y : option Z) : isin_year y anio_sel = true <-> In y anio_sel.
Proof.
  unfold isin_year. rewrite existsb_exists. split.
  - intros (x & Hx & Heq). apply eqb_year_eq in Heq. now subst.
  - intros H. exists y. split; [assumption | now apply eqb_year_eq].
Qed.

Lemma criterio_coincide (r : Suceso (option date)) :
  isin_tipo (tipo r) tipo_sel && isin_year (dt_year (fecha r)) anio_sel = true
  <-> coincide tipo_sel anio_sel r.
Proof.
  unfold coincide. now rewrite andb_true_iff, isin_tipo_In, isin_year_In.
Qed.

(** C8.  The filtered frame holds exactly the rows whose category is among
    the selected categories and whose year is among the selected years:
    each row of the frame is kept, as it is and in its place, when it
    matches, and dropped when it does not.  A selection that contains no
    category of the frame gives a frame without rows. *)
Theorem filtrado_exacto (df : DataFrame) :
  (forall r, In r (filtrado df tipo_sel anio_sel) <->
             In r df /\ coincide tipo_sel anio_sel r)
  /\ (forall l1 r l2, df = l1 ++ r :: l2 -> coincide tipo_sel anio_sel r ->
        filtrado df tipo_sel anio_sel =
        filtrado l1 tipo_sel anio_sel ++ r :: filtrado l2 tipo_sel anio_sel)
  /\ (forall l1 r l2, df = l1 ++ r :: l2 -> ~ coincide tipo_sel anio_sel r ->
        filtrado df tipo_sel anio_sel =
        filtrado l1 tipo_sel anio_sel ++ filtrado l2 tipo_sel anio_sel)
  /\ ((forall r, In r df -> ~ In (tipo r) tipo_sel) ->
        filtrado df tipo_sel anio_sel = []).
Proof.
  split; [ | split; [ | split]].
  - intros r. unfold filtrado. rewrite filter_In, criterio_coincide. tauto.
  - intros l1 r l2 -> Hc. unfold filtrado. rewrite filter_app. cbn [filter].
    apply criterio_coincide in Hc. now rewrite Hc.
  - intros l1 r l2 -> Hc. unfold filtrado. rewrite filter_app. cbn [filter].
    destruct (isin_tipo (tipo r) tipo_sel &&
              isin_year (dt_year (fecha r)) anio_sel) eqn:E; [ | reflexivity].
    exfalso. now apply Hc, criterio_coincide.
  - intros Hno. unfold filtrado.
    induction df as [ | r df' IH]; cbn [filter]; [reflexivity | ].
    destruct (isin_tipo (tipo r) tipo_sel) eqn:E.
    + exfalso. apply (Hno r (or_introl eq_refl)). now apply isin_tipo_In.
    + cbn [andb]. apply IH. intros r' Hr'. apply Hno. now right.
Qed.

End Filtro.

Section EjemploFiltro.

Lemma filtrado_exacto_witness :
  filtrado
    [mkSuceso 1 (Some (mkdate 2024 9 15)) "Sismo" None None None None 3 None None None;
     mkSuceso 2 None "Apagón" None None None None 2 None None None]
    ["Pandemia"; "Otro"] [Some 2024; None] = [].
Proof.
  apply (filtrado_exacto ["Pandemia"; "Otro"] [Some 2024; None]).
  intros r [<- | [<- | []]] [H | [H | []]]; discriminate H.
Defined.

End EjemploFiltro.

(* ------------------------------------------------------------------ *)
(** * The recording tab *)
(* ------------------------------------------------------------------ *)

Section Registro.

Lemma lookup_ausente (file : list (string * TomlValue)) (key : string) :
  (forall v, ~ In (key, v) file) -> lookup file key = None.
Proof.
  induction file as [ | [k v] rest IH]; intros H; cbn [lookup].
  - reflexivity.
  - destruct (String.eqb_spec k key) as [-> | _].
    + exfalso. apply (H v). now left.
    + apply IH. intros v' Hv'. apply (H v'). now right.
Qed.

(** X21.  With a secrets file that has no key [ALLOW_WRITE], whatever else
    it holds, writing is allowed.  Without a secrets file the line raises,
    and so it does when the key holds a value that is not a text, such as
    the boolean [false]. *)
Theorem allow_write_ausente (file : list (string * TomlValue)) :
  (forall v, ~ In ("ALLOW_WRITE"%string, v) file) ->
  allow_write (Some file) = inr true
  /\ allow_write None = inl StreamlitSecretNotFoundError
  /\ allow_write (Some (("ALLOW_WRITE"%string, toml_other) :: file)) =
     inl AttributeError.
Proof.
  intros H. split; [ | split; reflexivity].
  unfold allow_write, get. now rewrite (lookup_ausente _ _ H).
Qed.

Lemma slider_rango (lo hi pos : Z) :
  lo <= hi -> lo <= slider lo hi pos <= hi.
Proof. unfold slider. lia. Qed.

(** [agregar_suceso] writes what it is given: a text that is no date, a
    severity of 9, a latitude of 91 and a longitude of -200 make a row;
    and so do a latitude and a longitude out of range entered in the
    form. *)
Lemma agregar_no_valida :
  parse_iso "ayer" = None
  /\ Sqlite3.agregar_suceso "ayer" "Sismo" None None (Some (91 # 1)%Q)
       (Some (-200 # 1)%Q) 9 None None None (crear_db None) =
     inr (mkDB [mkSuceso 1 "ayer"%string "Sismo"%string None None
                  (Some (91 # 1)%Q) (Some (-200 # 1)%Q) 9 None None None] 1)
  /\ Sqlite3.guardar (mkFormulario (mkdate 2024 9 15) 2 "" "" (91 # 1)%Q
                        (-200 # 1)%Q 3 "" "" "") (crear_db None) =
     inr (mkDB [mkSuceso 1 "2024-09-15"%string "Sismo"%string
                  (Some ""%string) (Some ""%string) (Some (91 # 1)%Q)
                  (Some (-200 # 1)%Q) 3 (Some ""%string) (Some ""%string)
                  (Some ""%string)] 1).
Proof. repeat split. Qed.

(** C6, as the code has it.  No check of the severity, of the coordinates
    or of the date stands before the insert.  In a table whose next key
    fits 64 bits, a call with a severity that fits 64 bits, in or out of
    the range 1 to 5, with any coordinates and any date text adds exactly
    one row that holds the ten values; a severity beyond 64 bits makes the
    call raise and leaves the table as it was.  What the form passes is
    limited by its widgets only: the severity comes from the slider and
    lies between 1 and 5, the date is the text of a calendar date;
    latitude and longitude are passed as entered. *)
Theorem agregar_sin_validacion
    (f t : string) (st lu : option string) (la lo : option Q) (g : Z)
    (im fu no : option string) (w : Formulario) (db : DB) :
  next_rowid db <= Sqlite3.INT64_MAX ->
  valid_date (w_fecha w) = true ->
  (Sqlite3.cabe_int64 g = true ->
   exists db',
     Sqlite3.agregar_suceso f t st lu la lo g im fu no db = inr db'
     /\ sucesos db' =
        sucesos db ++ [mkSuceso (next_rowid db) f t st lu la lo g im fu no])
  /\ (Sqlite3.cabe_int64 g = false ->
      exists msg,
        Sqlite3.agregar_suceso f t st lu la lo g im fu no db =
        inl (Sqlite3.OverflowError msg))
  /\ exists db' row,
       Sqlite3.guardar w db = inr db'
       /\ sucesos db' = sucesos db ++ [row]
       /\ 1 <= gravedad row <= 5
       /\ parse_iso (fecha row) = Some (w_fecha w)
       /\ lat row = Some (w_lat w) /\ lon row = Some (w_lon w).
Proof.
  intros Hk Hv. split; [ | split].
  - intros Hg. eexists. split; [now apply sqlite3_agregar_ok | reflexivity].
  - intros Hg. unfold Sqlite3.agregar_suceso. rewrite Hg. cbn [negb].
    eexists. reflexivity.
  - pose proof (slider_rango 1 5 (w_gravedad w) ltac:(lia)) as Hs.
    eexists. eexists. split.
    + unfold Sqlite3.guardar. apply sqlite3_agregar_ok;
        [now apply cabe_int64_gravedad | exact Hk].
    + split; [reflexivity | ]. cbn [gravedad fecha lat lon].
      split; [exact Hs | ].
      split; [now apply parse_iso_isoformat | split; reflexivity].
Qed.

Lemma agregar_sin_validacion_witness :
  (exists db',
     Sqlite3.agregar_suceso "ayer" "Sismo" None None (Some (91 # 1)%Q)
       (Some (-200 # 1)%Q) 9 None None None (crear_db None) = inr db'
     /\ sucesos db' =
        [] ++ [mkSuceso 1 "ayer"%string "Sismo"%string None None
                 (Some (91 # 1)%Q) (Some (-200 # 1)%Q) 9 None None None])
  /\ (exists msg,
        Sqlite3.agregar_suceso "ayer" "Sismo" None None None None
          9223372036854775808 None None None (crear_db None) =
        inl (Sqlite3.OverflowError msg)).
Proof.
  split.
  - apply (agregar_sin_validacion "ayer" "Sismo" None None (Some (91 # 1)%Q)
             (Some (-200 # 1)%Q) 9 None None None
             (mkFormulario (mkdate 2024 9 15) 2 "Temblor" "Centro"
                (25538 # 1000)%Q (-103448 # 1000)%Q 8 "" "" "")
             (crear_db None)); [vm_compute; discriminate | reflexivity | reflexivity].
  - apply (agregar_sin_validacion "ayer" "Sismo" None None None None
             9223372036854775808 None None None
             (mkFormulario (mkdate 2024 9 15) 2 "Temblor" "Centro"
                (25538 # 1000)%Q (-103448 # 1000)%Q 8 "" "" "")
             (crear_db None)); [vm_compute; discriminate | reflexivity | reflexivity].
Defined.

End Registro.

(* ------------------------------------------------------------------ *)
(** * The map *)
(* ------------------------------------------------------------------ *)

Section Mapa.

(** A row that lacks a coordinate is passed over. *)
Lemma marcador_sin_coordenadas (r : Suceso (option date)) :
  lat r = None \/ lon r = None -> marcador r = inr None.
Proof.
  unfold marcador. intros [-> | ->]; [reflexivity | ].
  destruct (lat r); reflexivity.
Qed.

(** A row with both coordinates and an impact text gets its marker. *)
Lemma marcador_con_impacto (r : Suceso (option date)) (la lo : Q)
    (im : string) :
  lat r = Some la -> lon r = Some lo -> impacto r = Some im ->
  exists m, marcador r = inr (Some m)
            /\ location m = (la, lo)
            /\ radius m = 6 + gravedad r
            /\ color m = if 4 <=? gravedad r then "red"%string
                          else "orange"%string.
Proof.
  intros Hla Hlo Him. unfold marcador, popup_html.
  rewrite Hla, Hlo, Him. eexists. repeat split.
Qed.

Lemma radius_marcador (r : Suceso (option date)) (m : CircleMarker) :
  marcador r = inr (Some m) ->
  radius m = 6 + gravedad r
  /\ color m = if 4 <=? gravedad r then "red"%string else "orange"%string.
Proof.
  unfold marcador. intros H.
  destruct (lat r), (lon r), (popup_html r); try discriminate H.
  injection H as <-. split; reflexivity.
Qed.

(** The radius grows with the severity: a record of severity 5 has a
    larger marker than one of severity 1. *)
Lemma radio_creciente (r1 r2 : Suceso (option date)) (m1 m2 : CircleMarker) :
  marcador r1 = inr (Some m1) -> marcador r2 = inr (Some m2) ->
  gravedad r1 < gravedad r2 -> radius m1 < radius m2.
Proof.
  intros H1 H2 Hg.
  apply radius_marcador in H1 as [-> _], H2 as [-> _]. lia.
Qed.

(** When every row has an impact text the loop ends normally. *)
Lemma marcadores_con_impacto (df : DataFrame) (mapa : list CircleMarker) :
  (forall r, In r df -> impacto r <> None) ->
  exists ms, marcadores df mapa = inr (mapa ++ ms)
             /\ List.length ms =
                List.length
                  (filter (fun r => notnull (lat r) && notnull (lon r)) df).
Proof.
  revert mapa. induction df as [ | r df IH]; intros mapa H; cbn [marcadores filter].
  - exists []. now rewrite app_nil_r.
  - assert (Hdf : forall r', In r' df -> impacto r' <> None)
      by (intros r' Hr'; apply H; now right).
    destruct (lat r) as [la | ] eqn:Hla, (lon r) as [lo | ] eqn:Hlo;
      cbn [notnull andb];
      try (rewrite marcador_sin_coordenadas by tauto; apply (IH mapa Hdf)).
    destruct (impacto r) as [im | ] eqn:Him;
      [ | exfalso; now apply (H r (or_introl eq_refl))].
    destruct (marcador_con_impacto r la lo im Hla Hlo Him) as (m & -> & _).
    destruct (IH (mapa ++ [m]) Hdf) as (ms & -> & Hlen).
    exists (m :: ms). rewrite <- app_assoc. cbn [app List.length].
    now rewrite Hlen.
Qed.

(** C5, at a loaded record without impact text.  The record is written
    with [NULL] for impact, source and notes and with both coordinates;
    the map tab then ends with a [TypeError]. *)
Theorem mapa_impacto_nulo :
  tab_mapa
    (cargar_datos
       (agregar_suceso "2024-09-15" "Sismo" (Some "Temblor"%string)
          (Some "Tec Laguna"%string) (Some (25538 # 1000)%Q)
          (Some (-103448 # 1000)%Q) 3 None None None (crear_db None))) =
  inl (TypeError "'NoneType' object is not subscriptable").
Proof. reflexivity. Qed.

(** C7, at a record with both coordinates and no impact text.  The test
    on the coordinates passes, yet no marker is made for the record: the
    popup raises, and a frame that holds the record shows no map. *)
Theorem marcador_sin_impacto :
  let r1 := mkSuceso 1 (Some (mkdate 2023 5 2)) "Inundación"%string None
              (Some "Centro"%string) (Some (25540 # 1000)%Q)
              (Some (-103450 # 1000)%Q) 5 (Some "Calles anegadas"%string)
              None None in
  let r2 := mkSuceso 2 (Some (mkdate 2024 9 15)) "Apagón"%string None
              (Some "Oriente"%string) (Some (25560 # 1000)%Q)
              (Some (-103400 # 1000)%Q) 1 None None None in
  notnull (lat r2) && notnull (lon r2) = true
  /\ marcador r2 = inl (TypeError "'NoneType' object is not subscriptable")
  /\ tab_mapa [r1; r2] =
     inl (TypeError "'NoneType' object is not subscriptable").
Proof. repeat split. Qed.

End Mapa.


(* ------------------------------------------------------------------ *)
(** * The keys of the table *)
(* ------------------------------------------------------------------ *)

Section Claves.

Lemma max_rowid_le (l : list (Suceso string)) (m : Z) :
  0 <= m -> (forall s, In s l -> id s <= m) -> max_rowid l <= m.
Proof.
  intros Hm. induction l as [ | a l IH]; intros H; cbn [max_rowid fold_right].
  - exact Hm.
  - fold (max_rowid l). apply Z.max_lub.
    + apply H. now left.
    + apply IH. intros s Hs. apply H. now right.
Qed.

Lemma In_consecutivas (k : Z) (n : nat) :
  In k (consecutivas n) -> 1 <= k <= Z.of_nat n.
Proof.
  unfold consecutivas. intros H. apply in_map_iff in H as (i & <- & Hi).
  apply in_seq in Hi. lia.
Qed.

Lemma consecutivas_S (n : nat) :
  consecutivas (S n) = consecutivas n ++ [Z.of_nat n + 1].
Proof.
  unfold consecutivas. rewrite seq_S, map_app. cbn [map]. do 2 f_equal. lia.
Qed.

Lemma claves_agregar (f t : string) (st lu : option string) (la lo : option Q)
    (g : Z) (im fu no : option string) (db : DB) :
  map id (sucesos (agregar_suceso f t st lu la lo g im fu no db)) =
  map id (sucesos db) ++ [next_rowid db].
Proof. cbn [agregar_suceso sucesos]. now rewrite map_app. Qed.

(** The state a fresh file is in after [n] inserts. *)
Lemma alcanzable_inv (db : DB) :
  alcanzable db ->
  map id (sucesos db) = consecutivas (List.length (sucesos db))
  /\ sqlite_sequence db = Z.of_nat (List.length (sucesos db)).
Proof.
  induction 1 as [ | f t st lu la lo g im fu no db Hdb [IHk IHs]].
  - split; reflexivity.
  - assert (Hnext : next_rowid db = Z.of_nat (List.length (sucesos db)) + 1).
    { unfold next_rowid. rewrite IHs.
      assert (max_rowid (sucesos db) <= Z.of_nat (List.length (sucesos db))).
      { apply max_rowid_le; [lia | ]. intros s Hs.
        apply (in_map id) in Hs. rewrite IHk in Hs.
        apply In_consecutivas in Hs. lia. }
      lia. }
    split.
    + rewrite claves_agregar, IHk, Hnext. cbn [agregar_suceso sucesos].
      rewrite length_app. cbn [List.length]. rewrite Nat.add_1_r.
      now rewrite consecutivas_S.
    + cbn [agregar_suceso sucesos sqlite_sequence].
      rewrite Hnext, length_app. cbn [List.length]. lia.
Qed.

Lemma alcanzable_registrar (ws : list Formulario) (db : DB) :
  alcanzable db -> alcanzable (registrar ws db).
Proof.
  revert db. induction ws as [ | w ws IH]; intros db Hdb; cbn [registrar fold_left].
  - exact Hdb.
  - apply IH. unfold guardar. now constructor.
Qed.

(** X1.  An insert into a table whose keys are all different either is
    carried out, and then the keys are still all different, the new key is
    larger than every key of the table, fits 64 bits, and the counter of
    the table has grown; or it raises and nothing is written.  It is
    carried out exactly when the severity and the next key fit 64 bits. *)
Theorem claves_unicas (f t : string) (st lu : option string)
    (la lo : option Q) (g : Z) (im fu no : option string) (db : DB) :
  NoDup (map id (sucesos db)) ->
  match Sqlite3.agregar_suceso f t st lu la lo g im fu no db with
  | inr db' =>
      Sqlite3.cabe_int64 g = true
      /\ sucesos db' =
         sucesos db ++ [mkSuceso (next_rowid db) f t st lu la lo g im fu no]
      /\ NoDup (map id (sucesos db'))
      /\ (forall s, In s (sucesos db) -> id s < next_rowid db)
      /\ next_rowid db <= Sqlite3.INT64_MAX
      /\ sqlite_sequence db < sqlite_sequence db'
  | inl _ =>
      Sqlite3.cabe_int64 g = false \/ Sqlite3.INT64_MAX < next_rowid db
  end.
Proof.
  intros Hnd. unfold Sqlite3.agregar_suceso.
  destruct (Sqlite3.cabe_int64 g); cbn [negb]; [ | now left].
  destruct (Z.ltb_spec Sqlite3.INT64_MAX (next_rowid db)) as [Hfull | Hroom];
    [now right | ].
  split; [reflexivity | split; [reflexivity | ]].
  split; [ | split; [ | split]].
  - rewrite claves_agregar.
    apply (Permutation_NoDup (Permutation_cons_append _ _)).
    constructor; [apply next_rowid_fresh | exact Hnd].
  - intros s Hs. apply max_rowid_ge in Hs. unfold next_rowid. lia.
  - exact Hroom.
  - cbn [agregar_suceso sqlite_sequence]. unfold next_rowid. lia.
Qed.

Lemma claves_unicas_witness :
  match
    Sqlite3.agregar_suceso "2024-09-15" "Sismo" None None None None 3 None
      None None
      (mkDB [mkSuceso 7 "2020-01-01"%string "Otro"%string None None None None
               1 None None None] 9)
  with
  | inr db' => map id (sucesos db') = [7; 10]
  | inl _ => False
  end.
Proof.
  pose proof (claves_unicas "2024-09-15" "Sismo" None None None None 3 None
                None None
                (mkDB [mkSuceso 7 "2020-01-01"%string "Otro"%string None None
                         None None 1 None None None] 9)) as H.
  cbn [Sqlite3.agregar_suceso] in *.
  destruct (Sqlite3.agregar_suceso "2024-09-15" "Sismo" None None None None 3
              None None None
              (mkDB [mkSuceso 7 "2020-01-01"%string "Otro"%string None None
                       None None 1 None None None] 9)) as [e | db'] eqn:E.
  - discriminate E.
  - destruct H as (_ & -> & _).
    + cbn. constructor; [tauto | constructor].
    + reflexivity.
Defined.

(** X2.  In a table created empty and filled by inserts only, the keys are
    1, 2, ..., n in the order of insertion, and the counter of the table
    is n. *)
Theorem claves_consecutivas (db : DB) :
  alcanzable db ->
  map id (sucesos db) = consecutivas (List.length (sucesos db))
  /\ sqlite_sequence db = Z.of_nat (List.length (sucesos db))
  /\ next_rowid db = Z.of_nat (List.length (sucesos db)) + 1.
Proof.
  intros Hdb. destruct (alcanzable_inv db Hdb) as [Hk Hs].
  split; [exact Hk | split; [exact Hs | ]].
  unfold next_rowid. rewrite Hs.
  assert (max_rowid (sucesos db) <= Z.of_nat (List.length (sucesos db))).
  { apply max_rowid_le; [lia | ]. intros s Hin.
    apply (in_map id) in Hin. rewrite Hk in Hin.
    apply In_consecutivas in Hin. lia. }
  lia.
Qed.

Lemma claves_consecutivas_witness :
  map id (sucesos
    (agregar_suceso "2024-10-01" "Apagón" None None None None 2 None None None
       (agregar_suceso "2024-09-15" "Sismo" None None None None 3 None None
          None (crear_db None)))) = [1; 2].
Proof.
  apply (claves_consecutivas
    (agregar_suceso "2024-10-01" "Apagón" None None None None 2 None None None
       (agregar_suceso "2024-09-15" "Sismo" None None None None 3 None None
          None (crear_db None)))).
  repeat constructor.
Defined.

Lemma combine_seq_snoc {A} (l : list A) (x : A) (a : nat) :
  combine (seq a (List.length (l ++ [x]))) (l ++ [x]) =
  combine (seq a (List.length l)) l ++ [((a + List.length l)%nat, x)].
Proof.
  revert a. induction l as [ | y l IH]; intros a; cbn [List.length app seq combine].
  - now rewrite Nat.add_0_r.
  - rewrite IH. cbn [app]. f_equal. f_equal. f_equal. f_equal. lia.
Qed.

(** X3.  Recording forms one after the other into a table created empty,
    then loading: the frame holds one row per form, in the order of
    recording, the i-th with key i and with the date and the values of the
    i-th form. *)
Theorem registrar_luego_cargar (ws : list Formulario) :
  forallb fecha_legible ws = true ->
  cargar_datos (registrar ws (crear_db None)) =
  map (fun iw => fila_de (Z.of_nat (fst iw)) (snd iw))
      (combine (seq 1 (List.length ws)) ws).
Proof.
  induction ws as [ | w ws IH] using rev_ind; intros Hws.
  - reflexivity.
  - rewrite forallb_app in Hws. apply andb_true_iff in Hws as [Hws Hw].
    cbn [forallb] in Hw. rewrite andb_true_r in Hw.
    apply andb_true_iff in Hw as [Hv Hr].
    specialize (IH Hws).
    unfold registrar in *. rewrite fold_left_app. cbn [fold_left].
    set (db := fold_left (fun d w0 => guardar w0 d) ws (crear_db None)) in *.
    rewrite cargar_datos_map in *.
    unfold guardar at 1. cbn [agregar_suceso sucesos].
    rewrite map_app, IH, combine_seq_snoc, map_app. f_equal.
    cbn [map con_fecha fst snd]. unfold con_fecha, fila_de. cbn [id fecha tipo
      subtipo lugar lat lon gravedad impacto fuente notas].
    rewrite (to_datetime_isoformat _ Hv Hr).
    assert (Hdb : alcanzable db)
      by (apply (alcanzable_registrar ws), alc_nueva).
    destruct (alcanzable_inv db Hdb) as [Hk Hs].
    assert (Hlen : List.length (sucesos db) = List.length ws).
    { rewrite <- (length_map (con_fecha to_datetime)), IH, length_map,
        length_combine, length_seq. apply Nat.min_id. }
    replace (next_rowid db) with (Z.of_nat (1 + List.length ws)); [reflexivity | ].
    unfold next_rowid. rewrite Hs.
    assert (max_rowid (sucesos db) <= Z.of_nat (List.length (sucesos db))).
    { apply max_rowid_le; [lia | ]. intros s Hin.
      apply (in_map id) in Hin. rewrite Hk in Hin.
      apply In_consecutivas in Hin. lia. }
    lia.
Qed.

End Claves.

Section EjemploRegistrar.

Lemma registrar_luego_cargar_witness :
  cargar_datos
    (registrar
       [mkFormulario (mkdate 2024 9 15) 2 "Temblor" "Centro" (25538 # 1000)%Q
          (-103448 # 1000)%Q 3 "Sin daños" "" "";
        mkFormulario (mkdate 2025 6 1) 0 "Lluvia" "Oriente" (25560 # 1000)%Q
          (-103400 # 1000)%Q 9 "Calles anegadas" "" ""]
       (crear_db None)) =
  [mkSuceso 1 (Some (mkdate 2024 9 15)) "Sismo"%string (Some "Temblor"%string)
     (Some "Centro"%string) (Some (25538 # 1000)%Q) (Some (-103448 # 1000)%Q) 3
     (Some "Sin daños"%string) (Some ""%string) (Some ""%string);
   mkSuceso 2 (Some (mkdate 2025 6 1)) "Inundación"%string
     (Some "Lluvia"%string) (Some "Oriente"%string) (Some (25560 # 1000)%Q)
     (Some (-103400 # 1000)%Q) 5 (Some "Calles anegadas"%string)
     (Some ""%string) (Some ""%string)].
Proof.
  apply (registrar_luego_cargar
    [mkFormulario (mkdate 2024 9 15) 2 "Temblor" "Centro" (25538 # 1000)%Q
       (-103448 # 1000)%Q 3 "Sin daños" "" "";
     mkFormulario (mkdate 2025 6 1) 0 "Lluvia" "Oriente" (25560 # 1000)%Q
       (-103400 # 1000)%Q 9 "Calles anegadas" "" ""]).
  reflexivity.
Defined.

End EjemploRegistrar.

(* ------------------------------------------------------------------ *)
(** * The summary of probabilities: order, totals, shape *)
(* ------------------------------------------------------------------ *)

Section ResumenOrden.

Variable current_year : Z.

Lemma suma_contar (t : string) (acc : list (string * Z)) :
  suma (contar t acc) = suma acc + 1.
Proof.
  induction acc as [ | [k n] acc IH]; cbn [contar suma fold_right snd].
  - lia.
  - destruct (String.eqb k t); cbn [suma fold_right snd].
    + lia.
    + fold (suma (contar t acc)). fold (suma acc). lia.
Qed.

Lemma suma_conteo (l : list string) (acc : list (string * Z)) :
  suma (fold_left (fun a t => contar t a) l acc) =
  suma acc + Z.of_nat (List.length l).
Proof.
  revert acc. induction l as [ | t l IH]; intros acc; cbn [fold_left List.length].
  - lia.
  - rewrite IH, suma_contar. lia.
Qed.

Lemma suma_perm (l l' : list (string * Z)) :
  Permutation l l' -> suma l = suma l'.
Proof.
  induction 1 as [ | x l l' _ IH | x y l | l l' l'' _ IH1 _ IH2].
  - reflexivity.
  - change (snd x + suma l = snd x + suma l'). now rewrite IH.
  - change (snd y + (snd x + suma l) = snd x + (snd y + suma l)). lia.
  - now rewrite IH1.
Qed.

Lemma suma_value_counts (l : list string) :
  suma (value_counts l) = Z.of_nat (List.length l).
Proof.
  unfold value_counts.
  rewrite <- (suma_perm _ _ (ordenar_perm (conteo_en_orden l))).
  unfold conteo_en_orden. now rewrite suma_conteo.
Qed.

Lemma insertar_ordenado (x : string * Z) (l : list (string * Z)) :
  StronglySorted (fun a b => snd b <= snd a) l ->
  StronglySorted (fun a b => snd b <= snd a) (insertar x l).
Proof.
  induction l as [ | y l IH]; intros Hs; cbn [insertar].
  - constructor; constructor.
  - inversion Hs as [ | ? ? Hl Hy]; subst.
    destruct (Z.leb_spec (snd y) (snd x)) as [Hle | Hgt].
    + constructor; [exact Hs | ].
      constructor; [exact Hle | ].
      rewrite Forall_forall in *. intros z Hz. specialize (Hy z Hz). lia.
    + constructor; [now apply IH | ].
      rewrite Forall_forall in *. intros z Hz.
      apply (Permutation_in _ (Permutation_sym (insertar_perm x l))) in Hz.
      destruct Hz as [<- | Hz]; [lia | now apply Hy].
Qed.

Lemma ordenar_ordenado (l : list (string * Z)) :
  StronglySorted (fun a b => snd b <= snd a) (ordenar l).
Proof.
  induction l as [ | x l IH]; cbn [ordenar fold_right].
  - constructor.
  - now apply insertar_ordenado.
Qed.

Lemma value_counts_nil (l : list string) : value_counts l = [] -> l = [].
Proof.
  destruct l as [ | t l]; [reflexivity | ]. intros Hvc. exfalso.
  destruct (value_counts_spec (t :: l)) as [_ Hin].
  assert (H1 : 1 <= apariciones t (t :: l)).
  { rewrite apariciones_cons, String.eqb_refl. unfold apariciones. lia. }
  pose proof (proj2 (Hin t _) (conj eq_refl H1)) as H.
  rewrite Hvc in H. exact H.
Qed.

Lemma filas_resumen_In (df : DataFrame) (row : FilaProb) :
  In row (filas (resumen_probabilidades current_year df)) <->
  exists t, 1 <= cuenta current_year df t /\
            row = fila_prob t (cuenta current_year df t).
Proof.
  destruct (value_counts_spec (map tipo (recientes current_year df)))
    as [_ Hin].
  rewrite filas_resumen, in_map_iff. split.
  - intros ([t n] & <- & Htn). cbn [fst snd].
    apply Hin in Htn as [-> Hge]. rewrite apariciones_recientes in *.
    exists t. now split.
  - intros (t & Hge & ->). exists (t, cuenta current_year df t).
    split; [reflexivity | ].
    apply Hin. rewrite apariciones_recientes. now split.
Qed.

(** X4.  The rows of the summary go from the category with most events to
    the one with fewest. *)
Theorem resumen_ordenado (df : DataFrame) :
  StronglySorted no_menos_eventos
    (filas (resumen_probabilidades current_year df)).
Proof.
  rewrite filas_resumen.
  pose proof (ordenar_ordenado
    (conteo_en_orden (map tipo (recientes current_year df)))) as Hs.
  fold (value_counts (map tipo (recientes current_year df))) in Hs.
  induction Hs as [ | [t n] l Hl IH Hall]; cbn [map]; constructor.
  - exact IH.
  - rewrite Forall_forall in *. intros row Hrow.
    apply in_map_iff in Hrow as ([t' n'] & <- & Hin).
    apply (Hall _ Hin).
Qed.

(** X5.  The events of the rows add up to the number of records of the
    frame whose year is at least [current_year - 4]: each such record is
    counted in one row, once. *)
Theorem resumen_total (df : DataFrame) :
  total_eventos (filas (resumen_probabilidades current_year df)) =
  Z.of_nat (List.length (filter (en_ventana current_year) df)).
Proof.
  rewrite filas_resumen.
  transitivity (suma (value_counts (map tipo (recientes current_year df)))).
  - induction (value_counts (map tipo (recientes current_year df)))
      as [ | [t n] l IH]; cbn [map total_eventos suma fold_right fst snd
                               fila_prob Eventos_5_anios].
    + reflexivity.
    + f_equal. exact IH.
  - rewrite suma_value_counts, length_map. f_equal. f_equal.
    unfold recientes. apply filter_ext. intros r.
    apply year_ge_en_ventana.
Qed.

(** X6.  In every row the count is at least one and the annual mean is the
    count divided by five, exactly: the rounding to two decimals changes
    nothing. *)
Theorem resumen_promedio (df : DataFrame) (row : FilaProb) :
  In row (filas (resumen_probabilidades current_year df)) ->
  1 <= Eventos_5_anios row
  /\ Promedio_anual row = (IZR (Eventos_5_anios row) / 5)%R
  /\ row = fila_prob (Tipo row) (Eventos_5_anios row).
Proof.
  intros H. apply filas_resumen_In in H as (t & Hge & ->).
  cbn [fila_prob Eventos_5_anios Promedio_anual Tipo].
  split; [exact Hge | split; [apply py_round_promedio | reflexivity]].
Qed.

(** X7.  For a frame with rows, the summary has the four labelled columns
    exactly when some record is dated within the window; when none is, the
    summary is a frame without rows and without columns. *)
Theorem resumen_columnas (df : DataFrame) :
  df <> [] ->
  (columns (resumen_probabilidades current_year df) = columnas <->
   exists r, In r df /\ en_ventana current_year r = true)
  /\ ((forall r, In r df -> en_ventana current_year r = false) ->
      resumen_probabilidades current_year df = mkTabla [] []).
Proof.
  intros Hne.
  assert (Hrec : recientes current_year df = filter (en_ventana current_year) df).
  { unfold recientes. apply filter_ext. intros r. apply year_ge_en_ventana. }
  assert (Hdef : resumen_probabilidades current_year df =
                 DataFrame_de (map (fun tn => fila_prob (fst tn) (snd tn))
                   (value_counts (map tipo (recientes current_year df))))).
  { unfold resumen_probabilidades. destruct df; [contradiction | reflexivity]. }
  split.
  - rewrite Hdef. split.
    + intros Hc.
      destruct (recientes current_year df) as [ | r l] eqn:E.
      * discriminate Hc.
      * exists r. apply filter_In. rewrite <- Hrec. now left.
    + intros (r & Hr & Hw).
      assert (Hin : In r (recientes current_year df))
        by (rewrite Hrec; now apply filter_In).
      destruct (value_counts (map tipo (recientes current_year df)))
        as [ | tn l] eqn:E; [ | reflexivity].
      apply value_counts_nil, map_eq_nil in E. rewrite E in Hin. destruct Hin.
  - intros Hnone. rewrite Hdef.
    replace (recientes current_year df) with (@nil (Suceso (option date)));
      [reflexivity | ].
    symmetry. rewrite Hrec. clear Hne Hrec Hdef.
    induction df as [ | r l IH]; [reflexivity | ]. cbn [filter].
    rewrite (Hnone r (or_introl eq_refl)).
    apply IH. intros r0 Hr0. apply Hnone. now right.
Qed.

Lemma cuenta_perm (df df' : DataFrame) (t : string) :
  Permutation df df' -> cuenta current_year df t = cuenta current_year df' t.
Proof.
  intros Hp. unfold cuenta. f_equal.
  induction Hp as [ | x l l' _ IH | x y l | l l' l'' _ IH1 _ IH2];
    cbn [filter].
  - reflexivity.
  - destruct (_ && _); cbn [List.length]; now rewrite IH.
  - destruct (String.eqb (tipo x) t && en_ventana current_year x),
             (String.eqb (tipo y) t && en_ventana current_year y);
      reflexivity.
  - now rewrite IH1.
Qed.

(** X8.  The summary does not depend on the order of the records: two
    frames with the same rows in different orders give the same rows of
    the summary, up to their order. *)
Theorem resumen_permutacion (df df' : DataFrame) :
  Permutation df df' ->
  Permutation (filas (resumen_probabilidades current_year df))
              (filas (resumen_probabilidades current_year df')).
Proof.
  intros Hp.
  assert (Hnd : forall d, NoDup (filas (resumen_probabilidades current_year d))).
  { intros d. apply (NoDup_map_inv Tipo).
    rewrite filas_resumen, map_map. cbn [Tipo fila_prob].
    apply value_counts_spec. }
  apply NoDup_Permutation; [apply Hnd | apply Hnd | ].
  intros row. rewrite !filas_resumen_In.
  split; intros (t & Hge & ->); exists t;
    [rewrite <- (cuenta_perm df df' t Hp) | rewrite (cuenta_perm df df' t Hp)];
    now split.
Qed.

End ResumenOrden.


Section EjemplosResumen.

Lemma resumen_promedio_witness :
  Promedio_anual (fila_prob "Sismo" 1) = (IZR 1 / 5)%R.
Proof.
  apply (resumen_promedio 2026
    [mkSuceso 1 (Some (mkdate 2025 9 15)) "Sismo"%string None None None None 3
       None None None] (fila_prob "Sismo" 1)).
  rewrite filas_resumen. left. reflexivity.
Defined.

Lemma resumen_columnas_witness :
  resumen_probabilidades 2026
    [mkSuceso 1 (Some (mkdate 2019 9 15)) "Sismo"%string None None None None 3
       None None None] = mkTabla [] [].
Proof.
  apply (resumen_columnas 2026
    [mkSuceso 1 (Some (mkdate 2019 9 15)) "Sismo"%string None None None None 3
       None None None]).
  - discriminate.
  - intros r [<- | []]. reflexivity.
Defined.

Lemma resumen_permutacion_witness :
  Permutation
    (filas (resumen_probabilidades 2026
       [mkSuceso 1 (Some (mkdate 2025 9 15)) "Sismo"%string None None None None
          3 None None None;
        mkSuceso 2 (Some (mkdate 2024 3 2)) "Apagón"%string None None None None
          2 None None None]))
    (filas (resumen_probabilidades 2026
       [mkSuceso 2 (Some (mkdate 2024 3 2)) "Apagón"%string None None None None
          2 None None None;
        mkSuceso 1 (Some (mkdate 2025 9 15)) "Sismo"%string None None None None
          3 None None None])).
Proof. apply resumen_permutacion. apply perm_swap. Defined.

End EjemplosResumen.

(* ------------------------------------------------------------------ *)
(** * The map: which frames it shows, and what *)
(* ------------------------------------------------------------------ *)

Section MapaGeneral.

Lemma marcador_casos (r : Suceso (option date)) :
  if con_coordenadas r then
    if notnull (impacto r) then exists m, marcador r = inr (Some m) /\ marca_de r m
    else exists e, marcador r = inl e
  else marcador r = inr None.
Proof.
  unfold con_coordenadas, marcador, marca_de, popup_html.
  destruct (lat r) as [la | ], (lon r) as [lo | ]; cbn [notnull andb];
    try reflexivity.
  destruct (impacto r) as [im | ]; cbn [notnull].
  - eexists. split; [reflexivity | ]. cbn [location radius color popup fst snd].
    repeat split.
  - eexists. reflexivity.
Qed.

Lemma marcadores_general (df : DataFrame) (mapa : list CircleMarker) :
  if existsb sin_impacto df then exists e, marcadores df mapa = inl e
  else exists ms, marcadores df mapa = inr (mapa ++ ms)
                  /\ Forall2 marca_de (filter con_coordenadas df) ms.
Proof.
  revert mapa. induction df as [ | r df IH]; intros mapa;
    cbn [existsb marcadores filter].
  - exists []. rewrite app_nil_r. split; [reflexivity | constructor].
  - pose proof (marcador_casos r) as Hr.
    replace (sin_impacto r)
      with (con_coordenadas r && negb (notnull (impacto r))) by reflexivity.
    destruct (con_coordenadas r); cbn [andb orb].
    + destruct (notnull (impacto r)); cbn [negb orb].
      * destruct Hr as (m & -> & Hm). specialize (IH (mapa ++ [m])).
        destruct (existsb sin_impacto df); [exact IH | ].
        destruct IH as (ms & -> & Hms). exists (m :: ms).
        rewrite <- app_assoc. split; [reflexivity | now constructor].
      * destruct Hr as [e ->]. now exists e.
    + rewrite Hr. apply IH.
Qed.

(** X10.  The map tab ends with an exception exactly when some row of the
    frame has both coordinates and no impact text. *)
Theorem tab_mapa_falla (df : DataFrame) :
  (exists e, tab_mapa df = inl e) <->
  (exists r, In r df /\ lat r <> None /\ lon r <> None /\ impacto r = None).
Proof.
  assert (Hsi : existsb sin_impacto df = true <->
                exists r, In r df /\ lat r <> None /\ lon r <> None /\
                          impacto r = None).
  { rewrite existsb_exists. split; intros (r & Hin & H); exists r;
      (split; [exact Hin | ]); unfold sin_impacto, con_coordenadas in *.
    - destruct (lat r), (lon r), (impacto r); cbn in H; try discriminate H.
      repeat split; discriminate.
    - destruct H as (Hla & Hlo & ->).
      destruct (lat r); [ | contradiction]. destruct (lon r); [ | contradiction].
      reflexivity. }
  rewrite <- Hsi. unfold tab_mapa.
  pose proof (marcadores_general df []) as H.
  destruct df as [ | r df]; cbn [empty].
  - cbn [existsb]. split; [intros [e He]; discriminate He | discriminate].
  - destruct (existsb sin_impacto (r :: df)).
    + destruct H as [e ->]. split; [reflexivity | intros _; now exists e].
    + destruct H as (ms & -> & _).
      split; [intros [e He]; discriminate He | discriminate].
Qed.

(** X11.  When every row with both coordinates has an impact text, the map
    of a frame with rows holds one marker per row with both coordinates, in
    the order of the frame, each at the coordinates of its row, with radius
    6 plus the severity and red from severity 4 on, orange below. *)
Theorem tab_mapa_marcadores (df : DataFrame) :
  df <> [] ->
  (forall r, In r df -> lat r <> None -> lon r <> None -> impacto r <> None) ->
  exists ms, tab_mapa df = inr (st_folium ms)
             /\ Forall2 marca_de (filter con_coordenadas df) ms.
Proof.
  intros Hne Himp.
  assert (Hno : existsb sin_impacto df = false).
  { apply not_true_is_false. intros H.
    apply existsb_exists in H as (r & Hin & H).
    unfold sin_impacto, con_coordenadas in H.
    specialize (Himp r Hin).
    destruct (lat r), (lon r), (impacto r); cbn in H; try discriminate H.
    apply Himp; [discriminate | discriminate | reflexivity]. }
  pose proof (marcadores_general df []) as H. rewrite Hno in H.
  destruct H as (ms & Hms & Hall). exists ms. split; [ | exact Hall].
  unfold tab_mapa. destruct df; [contradiction | ]. cbn [empty].
  now rewrite Hms.
Qed.

Lemma tab_mapa_marcadores_witness :
  exists ms,
    tab_mapa
      [mkSuceso 1 (Some (mkdate 2023 5 2)) "Inundación"%string None None
         (Some (25540 # 1000)%Q) (Some (-103450 # 1000)%Q) 5
         (Some "Calles anegadas"%string) None None;
       mkSuceso 2 None "Apagón"%string None None None (Some (-103400 # 1000)%Q)
         1 None None None] = inr (st_folium ms)
    /\ Forall2 marca_de
         (filter con_coordenadas
            [mkSuceso 1 (Some (mkdate 2023 5 2)) "Inundación"%string None None
               (Some (25540 # 1000)%Q) (Some (-103450 # 1000)%Q) 5
               (Some "Calles anegadas"%string) None None;
             mkSuceso 2 None "Apagón"%string None None None
               (Some (-103400 # 1000)%Q) 1 None None None]) ms.
Proof.
  apply tab_mapa_marcadores.
  - discriminate.
  - intros r [<- | [<- | []]]; cbn [lat lon impacto]; intros; congruence.
Defined.

(** X12.  [s[:n]] as the popup uses it: the result is the beginning of the
    text, it has [n] characters or the whole text if that is shorter, it
    ends where a character ends, and a text of at most [n] characters is
    left as it is. *)
Theorem slice_to_prefijo (n : nat) (s : string) :
  (exists t, s = (slice_to n s ++ t)%string /\ en_frontera t)
  /\ caracteres (slice_to n s) = Nat.min n (caracteres s)
  /\ ((caracteres s <= n)%nat -> slice_to n s = s).
Proof.
  revert n. induction s as [ | c s IH]; intros n; cbn [slice_to caracteres].
  - split; [exists ""%string; split; [reflexivity | exact I] | ].
    split; [now rewrite Nat.min_0_r | reflexivity].
  - destruct (is_continuation c) eqn:Hc.
    + destruct (IH n) as ((t & Ht & Hf) & Hn & Hid).
      split; [exists t; split; [cbn [append]; now rewrite <- Ht | exact Hf] | ].
      cbn [caracteres]. rewrite Hc.
      split; [exact Hn | intros H; now rewrite Hid].
    + destruct n as [ | n].
      * split; [exists (String c s); split; [reflexivity | exact Hc] | ].
        split; [reflexivity | intros H; inversion H].
      * destruct (IH n) as ((t & Ht & Hf) & Hn & Hid).
        split; [exists t; split; [cbn [append]; now rewrite <- Ht | exact Hf] | ].
        cbn [caracteres]. rewrite Hc, Hn.
        split; [reflexivity | ]. intros H. f_equal. apply Hid.
        now apply le_S_n.
Qed.

Lemma slice_to_prefijo_witness : slice_to 100 "daños" = "daños"%string.
Proof. apply (slice_to_prefijo 100 "daños"). vm_compute. lia. Defined.

End MapaGeneral.

(* ------------------------------------------------------------------ *)
(** * What the form writes *)
(* ------------------------------------------------------------------ *)

Section Formularios.

Lemma selectbox_tipos (choice : nat) :
  In (selectbox tipos_de_suceso choice) tipos_de_suceso.
Proof.
  unfold selectbox, tipos_de_suceso.
  do 7 (destruct choice as [ | choice]; [cbn; tauto | ]).
  cbn. destruct choice; tauto.
Qed.

(** X13.  Submitting the form adds one row: its key is new, its date is the
    text of the chosen date, its category is one of the seven listed
    ones, its severity lies between 1 and 5, and none of its cells is
    [NULL] (a text left blank is stored as the empty text). *)
Theorem guardar_fila (w : Formulario) (db : DB) :
  exists row,
    sucesos (guardar w db) = sucesos db ++ [row]
    /\ id row = next_rowid db
    /\ fecha row = isoformat (w_fecha w)
    /\ In (tipo row) tipos_de_suceso
    /\ 1 <= gravedad row <= 5
    /\ sin_nulos row.
Proof.
  eexists. split; [reflexivity | ].
  cbn [id fecha tipo gravedad]. unfold sin_nulos.
  cbn [subtipo lugar lat lon impacto fuente notas].
  split; [reflexivity | split; [reflexivity | ]].
  split; [apply selectbox_tipos | ].
  split; [apply slider_rango; lia | ].
  repeat split; discriminate.
Qed.

Lemma registrar_sucesos (ws : list Formulario) (db : DB) :
  exists nuevos,
    sucesos (registrar ws db) = sucesos db ++ nuevos
    /\ List.length nuevos = List.length ws
    /\ Forall sin_nulos nuevos.
Proof.
  revert db. induction ws as [ | w ws IH]; intros db; cbn [registrar fold_left].
  - exists []. rewrite app_nil_r. repeat split. constructor.
  - destruct (IH (guardar w db)) as (nuevos & Hs & Hl & Hn).
    destruct (guardar_fila w db) as (row & Hrow & _ & _ & _ & _ & Hsn).
    exists (row :: nuevos). unfold registrar in Hs.
    rewrite Hs, Hrow, <- app_assoc. cbn [app List.length].
    repeat split; [now rewrite Hl | now constructor].
Qed.

Lemma sin_nulos_mapa (f : string -> option date) (l : list (Suceso string)) :
  Forall sin_nulos l ->
  existsb sin_impacto (map (con_fecha f) l) = false
  /\ filter con_coordenadas (map (con_fecha f) l) = map (con_fecha f) l.
Proof.
  induction 1 as [ | s l Hs _ [IH1 IH2]]; cbn [map existsb filter].
  - split; reflexivity.
  - destruct Hs as (_ & _ & Hla & Hlo & Him & _).
    assert (Hc : con_coordenadas (con_fecha f s) = true).
    { unfold con_coordenadas. cbn [con_fecha lat lon].
      destruct (lat s); [ | contradiction]. now destruct (lon s). }
    assert (Hi : sin_impacto (con_fecha f s) = false).
    { unfold sin_impacto. rewrite Hc. cbn [con_fecha impacto].
      now destruct (impacto s). }
    rewrite Hc, Hi. cbn [orb]. split; [exact IH1 | now rewrite IH2].
Qed.

(** X14.  For a table created empty and filled through the form only, the
    map tab never ends with an exception: without records it shows the
    notice, otherwise a map with one marker per record. *)
Theorem mapa_de_formularios (ws : list Formulario) :
  match ws with
  | [] =>
      tab_mapa (cargar_datos (registrar ws (crear_db None))) =
      inr (aviso "Aún no hay sucesos registrados con coordenadas.")
  | _ :: _ =>
      exists ms,
        tab_mapa (cargar_datos (registrar ws (crear_db None))) =
        inr (st_folium ms)
        /\ List.length ms = List.length ws
  end.
Proof.
  destruct ws as [ | w ws]; [reflexivity | ].
  destruct (registrar_sucesos (w :: ws) (crear_db None))
    as (nuevos & Hs & Hl & Hn).
  change (sucesos (crear_db None) ++ nuevos) with nuevos in Hs.
  rewrite cargar_datos_map, Hs.
  destruct (sin_nulos_mapa to_datetime nuevos Hn) as [Hno Hall].
  pose proof (marcadores_general (map (con_fecha to_datetime) nuevos) []) as H.
  rewrite Hno, Hall in H. destruct H as (ms & Hms & HF).
  exists ms. split.
  - unfold tab_mapa.
    destruct nuevos as [ | s nuevos]; [discriminate Hl | ].
    cbn [map empty]. cbn [map] in Hms. now rewrite Hms.
  - apply Forall2_length in HF. now rewrite <- HF, length_map.
Qed.

Lemma allow_write_ausente_witness :
  allow_write
    (Some [("DB_URL"%string, toml_str "sqlite:///sucesos_torreon.db")]) =
  inr true.
Proof.
  apply allow_write_ausente.
  intros v [H | []]. discriminate H.
Defined.

End Formularios.

(* ------------------------------------------------------------------ *)
(** * The filter: selections that cover the frame, filters in sequence *)
(* ------------------------------------------------------------------ *)

Section FiltroComposicion.

(** X16.  A selection that holds the category and the year of every row,
    as the default selection of the two lists does, gives the frame back
    as it is. *)
Theorem filtrado_todo (df : DataFrame) (tipo_sel : list string)
    (anio_sel : list (option Z)) :
  (forall r, In r df -> coincide tipo_sel anio_sel r) ->
  filtrado df tipo_sel anio_sel = df.
Proof.
  unfold filtrado. induction df as [ | r df IH]; intros H; cbn [filter].
  - reflexivity.
  - rewrite (proj2 (criterio_coincide tipo_sel anio_sel r)
                   (H r (or_introl eq_refl))).
    f_equal. apply IH. intros r' Hr'. apply H. now right.
Qed.

Lemma filtrado_todo_witness :
  filtrado
    [mkSuceso 1 (Some (mkdate 2024 9 15)) "Sismo"%string None None None None 3
       None None None;
     mkSuceso 2 None "Apagón"%string None None None None 2 None None None]
    ["Apagón"; "Sismo"]%string [Some 2024; None] =
  [mkSuceso 1 (Some (mkdate 2024 9 15)) "Sismo"%string None None None None 3
     None None None;
   mkSuceso 2 None "Apagón"%string None None None None 2 None None None].
Proof.
  apply filtrado_todo.
  intros r [<- | [<- | []]]; split; cbn; tauto.
Defined.

Lemma filter_filter {A} (f g : A -> bool) (l : list A) :
  filter f (filter g l) = filter (fun x => g x && f x) l.
Proof.
  induction l as [ | x l IH]; cbn [filter]; [reflexivity | ].
  destruct (g x); cbn [filter andb]; [destruct (f x) | ]; now rewrite IH.
Qed.

(** X17.  Filtering a filtered frame: the order of two selections does not
    matter, a second pass with the same selection changes nothing, and the
    rows left are the rows of the frame that match both selections. *)
Theorem filtrado_dos_veces (df : DataFrame) (ts ts' : list string)
    (ys ys' : list (option Z)) :
  filtrado (filtrado df ts ys) ts' ys' = filtrado (filtrado df ts' ys') ts ys
  /\ filtrado (filtrado df ts ys) ts ys = filtrado df ts ys
  /\ (forall r, In r (filtrado (filtrado df ts ys) ts' ys') <->
                In r df /\ coincide ts ys r /\ coincide ts' ys' r).
Proof.
  unfold filtrado. rewrite !filter_filter. split; [ | split].
  - apply filter_ext. intros r. apply andb_comm.
  - apply filter_ext. intros r. apply andb_diag.
  - intros r. rewrite filter_In, andb_true_iff, !criterio_coincide. tauto.
Qed.

End FiltroComposicion.

(* ------------------------------------------------------------------ *)
(** * The chart: groups, lines and points *)
(* ------------------------------------------------------------------ *)

Section Grafico.

Lemma misma_clave_eq (y : Z) (t : string) (g : Grupo) :
  misma_clave y t g = true <-> clave g = (y, t).
Proof.
  unfold misma_clave, clave. rewrite andb_true_iff, Z.eqb_eq, String.eqb_eq.
  split; [intros [-> ->]; reflexivity | intros [= -> ->]; now split].
Qed.

Lemma buscar_grupo_notin (y : Z) (t : string) (acc : list Grupo) :
  ~ In (y, t) (map clave acc) -> buscar_grupo y t acc = 0.
Proof.
  induction acc as [ | g acc IH]; cbn [buscar_grupo fold_right map In];
    intros Hn; [reflexivity | ].
  fold (buscar_grupo y t acc).
  destruct (misma_clave y t g) eqn:E.
  - exfalso. apply Hn. left. now apply misma_clave_eq.
  - apply IH. intros H. apply Hn. now right.
Qed.

Lemma In_buscar_grupo (g : Grupo) (acc : list Grupo) :
  NoDup (map clave acc) -> In g acc ->
  buscar_grupo (g_fecha g) (g_tipo g) acc = conteo g.
Proof.
  induction acc as [ | g' acc IH]; cbn [buscar_grupo fold_right map In];
    [tauto | ].
  fold (buscar_grupo (g_fecha g) (g_tipo g) acc).
  intros Hnd [-> | Hin]; inversion Hnd as [ | ? ? Hk Hnd']; subst.
  - rewrite (proj2 (misma_clave_eq _ _ g) eq_refl).
    rewrite (buscar_grupo_notin _ _ acc Hk). lia.
  - destruct (misma_clave (g_fecha g) (g_tipo g) g') eqn:E.
    + exfalso. apply Hk. apply misma_clave_eq in E. rewrite E.
      now apply (in_map clave) in Hin.
    + now apply IH.
Qed.

Lemma buscar_grupo_In (y : Z) (t : string) (acc : list Grupo) :
  1 <= buscar_grupo y t acc -> exists c, In (mkGrupo y t c) acc.
Proof.
  induction acc as [ | g acc IH]; cbn [buscar_grupo fold_right In]; [lia | ].
  fold (buscar_grupo y t acc).
  destruct (misma_clave y t g) eqn:E.
  - intros _. exists (conteo g). left.
    apply misma_clave_eq in E. destruct g as [y' t' c].
    now injection E as -> ->.
  - intros H. destruct (IH H) as [c Hc]. exists c. now right.
Qed.

Lemma buscar_contar_grupo (y' y : Z) (t' t : string) (acc : list Grupo) :
  buscar_grupo y' t' (contar_grupo y t acc) =
  buscar_grupo y' t' acc + (if (y =? y') && String.eqb t t' then 1 else 0).
Proof.
  induction acc as [ | g acc IH]; cbn [contar_grupo buscar_grupo fold_right].
  - unfold misma_clave. cbn [g_fecha g_tipo conteo].
    destruct ((y =? y') && String.eqb t t'); lia.
  - fold (buscar_grupo y' t' acc).
    destruct (misma_clave y t g) eqn:E; cbn [buscar_grupo fold_right].
    + fold (buscar_grupo y' t' acc).
      apply misma_clave_eq in E. destruct g as [gy gt gc].
      injection E as -> ->. unfold misma_clave. cbn [g_fecha g_tipo conteo].
      destruct ((y =? y') && String.eqb t t'); lia.
    + fold (buscar_grupo y' t' (contar_grupo y t acc)). rewrite IH.
      destruct (misma_clave y' t' g); lia.
Qed.

Lemma claves_contar_grupo (y : Z) (t : string) (acc : list Grupo) (k : Z * string) :
  In k (map clave (contar_grupo y t acc)) -> In k (map clave acc) \/ k = (y, t).
Proof.
  induction acc as [ | g acc IH]; cbn [contar_grupo map In].
  - intros [<- | []]. now right.
  - destruct (misma_clave y t g) eqn:E; cbn [map In].
    + apply misma_clave_eq in E. rewrite E. unfold clave at 1.
      cbn [g_fecha g_tipo]. tauto.
    + intros [H | H]; [tauto | ]. destruct (IH H); tauto.
Qed.

Lemma NoDup_contar_grupo (y : Z) (t : string) (acc : list Grupo) :
  NoDup (map clave acc) -> NoDup (map clave (contar_grupo y t acc)).
Proof.
  induction acc as [ | g acc IH]; cbn [contar_grupo map]; intros Hnd.
  - constructor; [intros [] | constructor].
  - inversion Hnd as [ | ? ? Hk Hnd']; subst.
    destruct (misma_clave y t g) eqn:E; cbn [map].
    + apply misma_clave_eq in E. unfold clave at 1. cbn [g_fecha g_tipo].
      rewrite <- E. now constructor.
    + constructor; [ | now apply IH].
      intros H. apply claves_contar_grupo in H as [H | H]; [now apply Hk | ].
      apply misma_clave_eq in H. congruence.
Qed.

Lemma positivos_contar_grupo (y : Z) (t : string) (acc : list Grupo) :
  Forall (fun g => 1 <= conteo g) acc ->
  Forall (fun g => 1 <= conteo g) (contar_grupo y t acc).
Proof.
  induction acc as [ | g acc IH]; cbn [contar_grupo]; intros H.
  - constructor; [cbn; lia | constructor].
  - inversion H as [ | ? ? Hg Hacc]; subst.
    destruct (misma_clave y t g); constructor; cbn [conteo]; auto; lia.
Qed.

Lemma agrupar_fold (df : DataFrame) (acc : list Grupo) :
  NoDup (map clave acc) -> Forall (fun g => 1 <= conteo g) acc ->
  let res := fold_left (fun a r =>
                          match dt_year (fecha r) with
                          | Some y => contar_grupo y (tipo r) a
                          | None => a
                          end) df acc in
  NoDup (map clave res) /\ Forall (fun g => 1 <= conteo g) res /\
  forall y t, buscar_grupo y t res = buscar_grupo y t acc + cuenta_grupo df y t.
Proof.
  revert acc. induction df as [ | r df IH]; intros acc Hnd Hpos; cbn [fold_left].
  - repeat split; auto. intros y t. unfold cuenta_grupo. cbn. lia.
  - assert (Hc : forall y t, cuenta_grupo (r :: df) y t =
                  (if en_grupo y t r then 1 else 0) + cuenta_grupo df y t).
    { intros y t. unfold cuenta_grupo. cbn [filter].
      destruct (en_grupo y t r); cbn [List.length]; lia. }
    unfold en_grupo in Hc.
    destruct (dt_year (fecha r)) as [yr | ].
    + destruct (IH _ (NoDup_contar_grupo yr (tipo r) acc Hnd)
                     (positivos_contar_grupo yr (tipo r) acc Hpos))
        as (H1 & H2 & H3).
      repeat split; auto. intros y t.
      rewrite H3, buscar_contar_grupo, Hc. lia.
    + destruct (IH acc Hnd Hpos) as (H1 & H2 & H3).
      repeat split; auto. intros y t. rewrite H3, Hc. lia.
Qed.

Lemma insertar_grupo_perm (x : Grupo) (l : list Grupo) :
  Permutation (x :: l) (insertar_grupo x l).
Proof.
  induction l as [ | y l IH]; cbn [insertar_grupo].
  - apply Permutation_refl.
  - destruct (clave_leb x y); [apply Permutation_refl | ].
    apply perm_trans with (y :: x :: l); [apply perm_swap | now apply perm_skip].
Qed.

Lemma groupby_size_perm (df : DataFrame) :
  Permutation (agrupar df) (groupby_size df).
Proof.
  unfold groupby_size.
  induction (agrupar df) as [ | x l IH]; cbn [fold_right].
  - apply perm_nil.
  - apply perm_trans with (x :: fold_right insertar_grupo [] l);
      [now apply perm_skip | apply insertar_grupo_perm].
Qed.

Lemma clave_leb_fecha (a b : Grupo) :
  (clave_leb a b = true -> g_fecha a <= g_fecha b)
  /\ (clave_leb a b = false -> g_fecha b <= g_fecha a).
Proof.
  unfold clave_leb.
  destruct (Z.ltb_spec (g_fecha a) (g_fecha b)) as [Hlt | Hge],
           (Z.eqb_spec (g_fecha a) (g_fecha b)) as [Heq | Hne]; cbn [orb andb];
    split; intros Hc; try discriminate Hc; lia.
Qed.

Lemma insertar_grupo_por_fecha (x : Grupo) (l : list Grupo) :
  StronglySorted (fun a b => g_fecha a <= g_fecha b) l ->
  StronglySorted (fun a b => g_fecha a <= g_fecha b) (insertar_grupo x l).
Proof.
  induction l as [ | y l IH]; intros Hs; cbn [insertar_grupo].
  - constructor; constructor.
  - inversion Hs as [ | ? ? Hl Hy]; subst.
    destruct (clave_leb x y) eqn:E.
    + apply clave_leb_fecha in E.
      constructor; [exact Hs | ]. constructor; [exact E | ].
      rewrite Forall_forall in *. intros z Hz. specialize (Hy z Hz). lia.
    + apply clave_leb_fecha in E.
      constructor; [now apply IH | ].
      rewrite Forall_forall in *. intros z Hz.
      apply (Permutation_in _ (Permutation_sym (insertar_grupo_perm x l))) in Hz.
      destruct Hz as [<- | Hz]; [exact E | now apply Hy].
Qed.

Lemma groupby_size_por_fecha (df : DataFrame) :
  StronglySorted (fun a b => g_fecha a <= g_fecha b) (groupby_size df).
Proof.
  unfold groupby_size.
  induction (agrupar df) as [ | x l IH]; cbn [fold_right].
  - constructor.
  - now apply insertar_grupo_por_fecha.
Qed.

(** The rows of [resumen]: one per year and category that occur together,
    with the number of rows of that year and category. *)
Lemma groupby_size_spec (df : DataFrame) :
  NoDup (map clave (groupby_size df))
  /\ forall y t c, In (mkGrupo y t c) (groupby_size df) <->
                   c = cuenta_grupo df y t /\ 1 <= c.
Proof.
  destruct (agrupar_fold df [] (NoDup_nil _) (Forall_nil _)) as (Hnd & Hpos & Hb0).
  fold (agrupar df) in Hnd, Hpos, Hb0.
  assert (Hb : forall y t, buscar_grupo y t (agrupar df) = cuenta_grupo df y t)
    by (intros y t; rewrite (Hb0 y t); reflexivity).
  pose proof (groupby_size_perm df) as Hperm.
  split.
  - apply (Permutation_NoDup (Permutation_map clave Hperm) Hnd).
  - intros y t c. split.
    + intros Hin. apply (Permutation_in _ (Permutation_sym Hperm)) in Hin.
      split.
      * rewrite <- (Hb y t).
        symmetry. apply (In_buscar_grupo (mkGrupo y t c) _ Hnd Hin).
      * rewrite Forall_forall in Hpos. apply (Hpos _ Hin).
    + intros [-> Hge]. apply (Permutation_in _ Hperm).
      assert (H1 : 1 <= buscar_grupo y t (agrupar df)) by (rewrite Hb; lia).
      destruct (buscar_grupo_In y t _ H1) as [c Hc].
      pose proof (In_buscar_grupo _ _ Hnd Hc) as Heq.
      cbn [g_fecha g_tipo conteo] in Heq. rewrite Hb in Heq.
      rewrite Heq. exact Hc.
Qed.

Lemma In_unique (x : string) (l : list string) : In x (unique l) <-> In x l.
Proof.
  induction l as [ | a l IH]; cbn [unique In]; [tauto | ].
  rewrite filter_In, IH, negb_true_iff, String.eqb_neq.
  destruct (string_dec a x); tauto.
Qed.

Lemma NoDup_unique (l : list string) : NoDup (unique l).
Proof.
  induction l as [ | a l IH]; cbn [unique]; constructor.
  - rewrite filter_In, negb_true_iff, String.eqb_neq. tauto.
  - now apply NoDup_filter.
Qed.

Lemma cuenta_grupo_pos (df : DataFrame) (y : Z) (t : string) :
  1 <= cuenta_grupo df y t <-> exists r, In r df /\ en_grupo y t r = true.
Proof.
  unfold cuenta_grupo. split.
  - intros H. destruct (filter (en_grupo y t) df) as [ | r l] eqn:E;
      [cbn in H; lia | ].
    exists r. apply filter_In. rewrite E. now left.
  - intros (r & Hr). apply filter_In in Hr.
    destruct (filter (en_grupo y t) df); [destruct Hr | cbn [List.length]; lia].
Qed.

Lemma groupby_size_nil (df : DataFrame) :
  groupby_size df = [] <-> forall r, In r df -> fecha r = None.
Proof.
  split.
  - destruct (groupby_size_spec df) as [_ Hin].
    intros Hnil r Hr. destruct (fecha r) as [d | ] eqn:Hf; [exfalso | reflexivity].
    assert (H1 : 1 <= cuenta_grupo df (year d) (tipo r)).
    { apply cuenta_grupo_pos. exists r. split; [exact Hr | ].
      unfold en_grupo. rewrite Hf. cbn [dt_year option_map].
      now rewrite Z.eqb_refl, String.eqb_refl. }
    pose proof (proj2 (Hin _ _ _) (conj eq_refl H1)) as H.
    rewrite Hnil in H. exact H.
  - intros Hnone. destruct (groupby_size df) as [ | [y t c] l] eqn:E;
      [reflexivity | exfalso].
    assert (Hg : In (mkGrupo y t c) (groupby_size df)) by (rewrite E; now left).
    apply (proj2 (groupby_size_spec df)) in Hg as [-> Hge]. apply cuenta_grupo_pos in Hge as (r & Hr & Hen).
    unfold en_grupo in Hen. rewrite (Hnone r Hr) in Hen. discriminate Hen.
Qed.

Lemma linea_creciente (t : string) (l : list Grupo) :
  NoDup (map clave l) ->
  StronglySorted (fun a b => g_fecha a <= g_fecha b) l ->
  StronglySorted Z.lt
    (map g_fecha (filter (fun g => String.eqb (g_tipo g) t) l)).
Proof.
  induction l as [ | g l IH]; intros Hnd Hs; cbn [filter map].
  - constructor.
  - inversion Hnd as [ | ? ? Hk Hnd']; inversion Hs as [ | ? ? Hl Hg]; subst.
    destruct (String.eqb_spec (g_tipo g) t) as [Ht | _]; [ | now apply IH].
    cbn [map]. constructor; [now apply IH | ].
    rewrite Forall_forall in *. intros z Hz.
    apply in_map_iff in Hz as (g' & <- & Hg').
    apply filter_In in Hg' as [Hin Ht'].
    apply String.eqb_eq in Ht'. specialize (Hg g' Hin).
    destruct (Z.eq_dec (g_fecha g) (g_fecha g')) as [Heq | Hne]; [ | lia].
    exfalso. apply Hk. apply in_map_iff. exists g'. split; [ | exact Hin].
    unfold clave. now rewrite Heq, Ht, Ht'.
Qed.

Lemma puntos_plot (resumen : list Grupo) (t : string) (y c : Z) :
  In (y, c) (puntos (plot resumen t)) <-> In (mkGrupo y t c) resumen.
Proof.
  unfold puntos, plot. cbn [plot_x plot_y].
  induction resumen as [ | g l IH]; cbn [filter map combine In]; [tauto | ].
  destruct (String.eqb_spec (g_tipo g) t) as [Ht | Hne]; cbn [map combine In].
  - rewrite IH. destruct g as [gy gt gc]. cbn [g_fecha g_tipo conteo] in *.
    subst gt. split; (intros [H | H]; [left | now right]).
    + now injection H as -> ->.
    + now injection H as -> ->.
  - rewrite IH. split; [now right | ].
    intros [H | H]; [ | exact H]. subst g. now cbn in Hne.
Qed.

(** X18.  The chart is left out exactly when no row of the filtered frame
    has a date; this includes the frame without rows. *)
Theorem grafica_omitida (filtrado : DataFrame) :
  grafica filtrado = None <-> forall r, In r filtrado -> fecha r = None.
Proof.
  rewrite <- groupby_size_nil. unfold grafica.
  destruct (groupby_size filtrado); cbn [empty negb];
    split; intros H; (reflexivity || discriminate H).
Qed.

(** X19.  In a chart that is drawn, no two lines have the same category,
    and each line has at least one point, as many counts as years, years
    that grow strictly from left to right and counts of at least one. *)
Theorem grafica_lineas (filtrado : DataFrame) (lineas : list Linea) :
  grafica filtrado = Some lineas ->
  NoDup (map label lineas)
  /\ forall l, In l lineas ->
       plot_x l <> []
       /\ List.length (plot_x l) = List.length (plot_y l)
       /\ StronglySorted Z.lt (plot_x l)
       /\ Forall (fun c => 1 <= c) (plot_y l).
Proof.
  unfold grafica. destruct (negb (empty (groupby_size filtrado))); [ | discriminate].
  intros [= <-].
  destruct (groupby_size_spec filtrado) as [Hnd Hin].
  split.
  - rewrite map_map. cbn [label plot]. rewrite map_id. apply NoDup_unique.
  - intros l Hl. apply in_map_iff in Hl as (t & <- & Ht).
    apply In_unique, in_map_iff in Ht as (g & Hgt & Hg).
    cbn [plot plot_x plot_y]. split; [ | split; [ | split]].
    + intros Hnil. apply map_eq_nil in Hnil.
      assert (Hf : In g (filter (fun g0 => String.eqb (g_tipo g0) t)
                           (groupby_size filtrado)))
        by (apply filter_In; split; [exact Hg | now apply String.eqb_eq]).
      rewrite Hnil in Hf. exact Hf.
    + now rewrite !length_map.
    + apply linea_creciente; [exact Hnd | apply groupby_size_por_fecha].
    + rewrite Forall_forall. intros c Hc.
      apply in_map_iff in Hc as ([y' t' c'] & <- & Hc).
      apply filter_In in Hc as [Hc _]. cbn [conteo].
      apply Hin in Hc. tauto.
Qed.

(** X20.  In a chart that is drawn, the line of a category has a point at
    a year with the count c exactly when c rows of the filtered frame, and
    at least one, are of that category and that year. *)
Theorem grafica_puntos (filtrado : DataFrame) (lineas : list Linea)
    (t : string) (y c : Z) :
  grafica filtrado = Some lineas ->
  ((exists l, In l lineas /\ label l = t /\ In (y, c) (puntos l)) <->
   c = cuenta_grupo filtrado y t /\ 1 <= c).
Proof.
  unfold grafica. destruct (negb (empty (groupby_size filtrado))); [ | discriminate].
  intros [= <-].
  destruct (groupby_size_spec filtrado) as [_ Hin].
  rewrite <- Hin. split.
  - intros (l & Hl & Hlab & Hp).
    apply in_map_iff in Hl as (t' & <- & _). cbn [plot label] in Hlab. subst t'.
    now apply puntos_plot.
  - intros Hg. exists (plot (groupby_size filtrado) t).
    split; [ | split; [reflexivity | now apply puntos_plot]].
    apply in_map, In_unique, in_map_iff.
    exists (mkGrupo y t c). now split.
Qed.

Lemma grafica_omitida_witness :
  grafica
    [mkSuceso 2 None "Apagón"%string None None None None 2 None None None] = None.
Proof.
  apply grafica_omitida. intros r [<- | []]. reflexivity.
Defined.

Lemma grafica_lineas_witness :
  NoDup (map label
    [mkLinea [2023] [1] "o" "Apagón"; mkLinea [2023; 2024] [1; 2] "o" "Sismo"]).
Proof.
  apply (grafica_lineas
    [mkSuceso 1 (Some (mkdate 2024 9 15)) "Sismo"%string None None None None 3
       None None None;
     mkSuceso 2 None "Apagón"%string None None None None 2 None None None;
     mkSuceso 3 (Some (mkdate 2023 9 15)) "Sismo"%string None None None None 3
       None None None;
     mkSuceso 4 (Some (mkdate 2023 1 15)) "Apagón"%string None None None None 3
       None None None;
     mkSuceso 5 (Some (mkdate 2024 2 15)) "Sismo"%string None None None None 3
       None None None]).
  reflexivity.
Defined.

Lemma grafica_puntos_witness :
  (exists l,
     In l [mkLinea [2024] [2] "o" "Sismo"] /\ label l = "Sismo"%string /\
     In (2024, 2) (puntos l)) <->
  2 = cuenta_grupo
        [mkSuceso 1 (Some (mkdate 2024 9 15)) "Sismo"%string None None None
           None 3 None None None;
         mkSuceso 5 (Some (mkdate 2024 2 15)) "Sismo"%string None None None
           None 3 None None None] 2024 "Sismo" /\ 1 <= 2.
Proof.
  apply (grafica_puntos
    [mkSuceso 1 (Some (mkdate 2024 9 15)) "Sismo"%string None None None None 3
       None None None;
     mkSuceso 5 (Some (mkdate 2024 2 15)) "Sismo"%string None None None None 3
       None None None]).
  reflexivity.
Defined.

End Grafico.
